(** * Weather-Dashboard: historical-weather cache and retry engine

    A shallow embedding of the caching and resilience code of the
    dashboard:

    - the error taxonomy, the classifier [handleAPIError], the
      retryability predicate, the back-off delay and [withRetry]
      (historical-weather-errors);
    - the two-tier cache manager [HistoricalWeatherCacheManager] and the
      static wrapper [CachedHistoricalWeatherAPI]
      (historical-weather-cache);
    - the hook-level [fetchWithCache] (useHistoricalWeatherCache);
    - the API client [HistoricalWeatherAPI] and the validator
      (historical-weather-api).

    Conventions of the model.
    - Instants (the clock [new Date()], the dates of cache entries) are
      their time value: milliseconds since the epoch, in [Z].  Every
      operation that reads the clock takes the instant [now] as an
      argument.  The cache manager is modelled on valid dates; the API
      client takes a [Date] that may be the invalid date.
    - The setters of [Date] that work on local time ([setHours],
      [setDate], [setFullYear]) are taken in the time zone of the host,
      a [Js.TimeZone]: the offset of local time at an instant and the
      offset the host picks for a local time.
    - JavaScript numbers that are formatted or compared exactly
      (coordinates, delays) are rationals: every finite double is one and
      [toFixed] is defined on the exact value.  Floating-point rounding of
      the arithmetic on delays is not modelled: the bounds on delays are
      stated with their ends included, which rounding respects.
    - Asynchronous IndexedDB requests are run to completion inside the
      operation that issues them; whether a request ends in [onsuccess] or
      [onerror] is an argument of the operation ([IdbRequest]).  A promise
      that nothing settles is [Pending].
      A call of [db.transaction] is taken to return.
    - [Math.random ()] is an argument: the draw made in a given attempt. *)

From Stdlib Require Import ZArith QArith Qabs Qminmax Qround Qpower Lqa Lia Bool List String Ascii.
From stdpp Require Import base option strings gmap pretty.
Import ListNotations.

Close Scope Q_scope.
Local Open Scope string_scope.
Local Open Scope Z_scope.

(* ===================================================================== *)
(** ** JavaScript built-ins used by the code *)
(* ===================================================================== *)

Module Js.

(** [String.prototype.includes]. *)
Fixpoint includes (s sub : string) : bool :=
  if String.prefix sub s then true
  else match s with
       | EmptyString => false
       | String _ rest => includes rest sub
       end.

(** [Array.prototype.includes] on an array of values with decidable
    equality. *)
Definition array_includes {A} `{EqDecision A} (xs : list A) (x : A) : bool :=
  existsb (fun y => bool_decide (y = x)) xs.

(** Truthiness of a string: the empty string is falsy. *)
Definition truthy_string (s : string) : bool :=
  negb (String.eqb s "").

(** The result of [parseInt]: an integer or [NaN]. *)
Inductive JsInt :=
| NaN
| Int (z : Z).

(** Truthiness of an optional number ([undefined], [NaN] and [0] are
    falsy). *)
Definition truthy_int (v : option JsInt) : bool :=
  match v with
  | Some (Int z) => negb (z =? 0)
  | _ => false
  end.

Definition isWhiteSpace (a : ascii) : bool :=
  let n := N_of_ascii a in
  (n =? 32)%N || ((9 <=? n)%N && (n <=? 13)%N).

Fixpoint trimStart (s : string) : string :=
  match s with
  | String a rest => if isWhiteSpace a then trimStart rest else s
  | EmptyString => EmptyString
  end.

Definition digitValue (a : ascii) : option Z :=
  let n := Z.of_N (N_of_ascii a) in
  if (48 <=? n) && (n <=? 57) then Some (n - 48)
  else if (97 <=? n) && (n <=? 122) then Some (n - 87)
  else if (65 <=? n) && (n <=? 90) then Some (n - 55)
  else None.

(** The longest prefix of digits of the radix, read as a number; [acc] is
    [None] until a digit has been read. *)
Fixpoint readDigits (radix : Z) (s : string) (acc : option Z) : option Z :=
  match s with
  | EmptyString => acc
  | String a rest =>
      match digitValue a with
      | Some d =>
          if d <? radix
          then readDigits radix rest (Some (default 0 acc * radix + d))
          else acc
      | None => acc
      end
  end.

(** [parseInt (s)] with no radix argument: leading white space, a sign,
    a [0x] prefix for radix 16, then the digits. *)
Definition parseInt (s : string) : JsInt :=
  let s1 := trimStart s in
  let '(negative, s2) :=
    match s1 with
    | String "-" rest => (true, rest)
    | String "+" rest => (false, rest)
    | _ => (false, s1)
    end in
  let '(radix, s3) :=
    match s2 with
    | String "0" (String "x" rest) => (16, rest)
    | String "0" (String "X" rest) => (16, rest)
    | _ => (10, s2)
    end in
  match readDigits radix s3 None with
  | None => NaN
  | Some n => Int (if negative then - n else n)
  end.

(** A JavaScript number as [toFixed] sees it. *)
Inductive Number :=
| NumNaN
| NumInfinity (negative : bool)
| NumFinite (q : Q).

Fixpoint zeros (n : nat) : string :=
  match n with
  | O => ""
  | S n' => String "0" (zeros n')
  end.

(** [String (n).padStart (width, "0")] for a natural number. *)
Definition padZeros (width : nat) (n : Z) : string :=
  let s := pretty (Z.to_N n) in
  zeros (width - String.length s) +:+ s.

(** The integer [n] for which [n / 10^f - x] is closest to zero, the
    larger one on a tie ([x >= 0]). *)
Definition roundScaled (x : Q) (f : nat) : Z :=
  Qfloor (x * inject_Z (10 ^ Z.of_nat f) + (1 # 2))%Q.

Section ToFixed.
(** [Number::toString] of a finite number of magnitude 10^21 or more
    (exponent notation), which [toFixed] falls back to. *)
Variable exponentForm : Q -> string.

(** [Number.prototype.toFixed (f)]. *)
Definition toFixed (x : Number) (f : nat) : string :=
  match x with
  | NumNaN => "NaN"
  | NumInfinity negative => if negative then "-Infinity" else "Infinity"
  | NumFinite q =>
      if Qle_bool (inject_Z (10 ^ 21)) (Qabs q) then exponentForm q
      else
        let s := if Qle_bool 0%Q q then "" else "-" in
        let n := roundScaled (Qabs q) f in
        let scale := 10 ^ Z.of_nat f in
        let a := pretty (Z.to_N (n / scale)) in
        match f with
        | O => s +:+ a
        | _ => s +:+ a +:+ "." +:+ padZeros f (n mod scale)
        end
  end.
End ToFixed.

Definition msPerDay : Z := 86400000.

(** [Day (t)]: the number of the UTC day an instant falls in. *)
Definition Day (t : Z) : Z := t / msPerDay.

(** The time zone of the host.  [offsetAt t] is the offset of local time
    from UTC, in milliseconds, at the instant [t]; [offsetOfLocal l] is
    the offset the host uses to turn the local time value [l] into an
    instant (at a local time that a transition skips or repeats, the
    offset in force before the transition). *)
Record TimeZone := {
  offsetAt : Z -> Z;
  offsetOfLocal : Z -> Z
}.

(** [LocalTime (t)]. *)
Definition LocalTime (tz : TimeZone) (t : Z) : Z := t + offsetAt tz t.

(** [UTC (t)] of a local time value. *)
Definition UTC (tz : TimeZone) (l : Z) : Z := l - offsetOfLocal tz l.

(** A setter that moves the local time value of a date by [delta]
    milliseconds: [d.setHours (d.getHours () + h)] with [delta] the [h]
    hours, [d.setDate (d.getDate () + n)] with [delta] the [n] days. *)
Definition setLocal (tz : TimeZone) (t delta : Z) : Z :=
  UTC tz (LocalTime tz t + delta).

(** A zone whose offset never changes. *)
Definition fixedOffset (offset : Z) : TimeZone :=
  {| offsetAt := fun _ => offset; offsetOfLocal := fun _ => offset |}.

(** A [Date] object: its time value, or [None] for the invalid date,
    whose time value is [NaN]. *)
Definition Date : Type := option Z.

(** [a > b] on two dates; a comparison with the invalid date is false. *)
Definition dateGt (a b : Date) : bool :=
  match a, b with
  | Some x, Some y => y <? x
  | _, _ => false
  end.

(** [a < b] on two dates. *)
Definition dateLt (a b : Date) : bool := dateGt b a.

(** [a <= b] on two dates. *)
Definition dateLe (a b : Date) : bool :=
  match a, b with
  | Some x, Some y => x <=? y
  | _, _ => false
  end.

(** Year, month and day of the month of a day number, in the proleptic
    Gregorian calendar. *)
Definition civil (day : Z) : Z * Z * Z :=
  let z := day + 719468 in
  let era := z / 146097 in
  let doe := z - era * 146097 in
  let yoe := (doe - doe / 1460 + doe / 36524 - doe / 146096) / 365 in
  let doy := doe - (365 * yoe + yoe / 4 - yoe / 100) in
  let mp := (5 * doy + 2) / 153 in
  let d := doy - (153 * mp + 2) / 5 + 1 in
  let m := if mp <? 10 then mp + 3 else mp - 9 in
  let y := yoe + era * 400 + (if m <=? 2 then 1 else 0) in
  (y, m, d).

(** The year of an ISO date string: four digits, or a sign and six digits
    outside 0..9999. *)
Definition isoYear (y : Z) : string :=
  if (0 <=? y) && (y <=? 9999) then padZeros 4 y
  else if y <? 0 then "-" +:+ padZeros 6 (- y)
  else "+" +:+ padZeros 6 y.

(** [date.toISOString ().split ("T")[0]]. *)
Definition toISODate (t : Z) : string :=
  let '(y, m, d) := civil (Day t) in
  isoYear y +:+ "-" +:+ padZeros 2 m +:+ "-" +:+ padZeros 2 d.

End Js.

(* ===================================================================== *)
(** ** Error taxonomy, classifier and retry engine *)
(* ===================================================================== *)

Module Errors.

(** The class an error object was constructed with: what [instanceof]
    observes. *)
Inductive ErrorClass :=
| ClassHistoricalWeatherError
| ClassDateValidationError
| ClassAPILimitError
| ClassDataUnavailableError
| ClassNetworkError.

#[global] Instance ErrorClass_eq_dec : EqDecision ErrorClass.
Proof. solve_decision. Defined.

(** [HistoricalWeatherError] and its subclasses.  [retryAfter] is the
    field of [APILimitError], [availableRange] that of
    [DataUnavailableError] and [originalError] that of [NetworkError],
    which wraps a [TypeError] kept here by its message. *)
Record HistoricalWeatherError := {
  class : ErrorClass;
  message : string;
  code : string;
  statusCode : option Z;
  retryAfter : option Js.JsInt;
  availableRange : option (Z * Z);
  originalError : option string
}.

Definition newHistoricalWeatherError
    (message code : string) (statusCode : option Z) : HistoricalWeatherError :=
  {| class := ClassHistoricalWeatherError; message := message; code := code;
     statusCode := statusCode; retryAfter := None; availableRange := None;
     originalError := None |}.

Definition newDateValidationError (message : string) : HistoricalWeatherError :=
  {| class := ClassDateValidationError; message := message;
     code := "DATE_VALIDATION_ERROR"; statusCode := None; retryAfter := None;
     availableRange := None; originalError := None |}.

Definition newAPILimitError
    (message : string) (retryAfter : option Js.JsInt) : HistoricalWeatherError :=
  {| class := ClassAPILimitError; message := message;
     code := "API_LIMIT_ERROR"; statusCode := Some 429;
     retryAfter := retryAfter; availableRange := None;
     originalError := None |}.

Definition newDataUnavailableError
    (message : string) (availableRange : option (Z * Z))
    : HistoricalWeatherError :=
  {| class := ClassDataUnavailableError; message := message;
     code := "DATA_UNAVAILABLE_ERROR"; statusCode := Some 404;
     retryAfter := None; availableRange := availableRange;
     originalError := None |}.

Definition newNetworkError
    (message : string) (originalError : option string)
    : HistoricalWeatherError :=
  {| class := ClassNetworkError; message := message; code := "NETWORK_ERROR";
     statusCode := None; retryAfter := None; availableRange := None;
     originalError := originalError |}.

(** An object thrown by an operation that is neither one of the classes
    above nor a [TypeError].  A property is [None] when the object does not
    have it; [status] and [statusCode], when present, hold a number or
    [undefined] (the inner [None]). *)
Record RawObject := {
  status : option (option Z);
  rawStatusCode : option (option Z);
  headers : option (gmap string string);
  rawMessage : option string
}.

(** What an operation can throw ([error : unknown]): an error of the
    taxonomy, a [TypeError] (it has the properties of [Error]: a message,
    no status), another object, or a value that is not an object. *)
Inductive Raw :=
| RawClassified (e : HistoricalWeatherError)
| RawTypeError (msg : string)
| RawObj (o : RawObject)
| RawPrimitive.

(** ['status' in error || 'statusCode' in error]. *)
Definition hasStatus (o : RawObject) : bool :=
  bool_decide (is_Some (status o)) || bool_decide (is_Some (rawStatusCode o)).

(** [error.status || error.statusCode]: the first when it is truthy (a
    number other than 0), else the second. *)
Definition statusOf (o : RawObject) : option Z :=
  match mjoin (status o) with
  | Some s => if s =? 0 then mjoin (rawStatusCode o) else Some s
  | None => mjoin (rawStatusCode o)
  end.

(** [headers?.['retry-after'] ? parseInt (headers['retry-after']) : undefined]. *)
Definition retryAfterOf (o : RawObject) : option Js.JsInt :=
  match headers o with
  | Some h =>
      match h !! "retry-after" with
      | Some v => if Js.truthy_string v then Some (Js.parseInt v) else None
      | None => None
      end
  | None => None
  end.

(** The text of [${status}] in a template literal. *)
Definition showStatus (s : option Z) : string :=
  match s with
  | Some n => pretty n
  | None => "undefined"
  end.

Definition genericMessage (m : option string) (context : option string) : string :=
  let message :=
    match m with
    | Some s =>
        if Js.truthy_string s then s
        else "An unexpected error occurred while fetching weather data."
    | None => "An unexpected error occurred while fetching weather data."
    end in
  match context with
  | Some c => if Js.truthy_string c then c +:+ ": " +:+ message else message
  | None => message
  end.

(** A [case n:] label of [switch (status)]: strict equality with [n]. *)
Definition caseIs (status : option Z) (n : Z) : bool :=
  bool_decide (status = Some n).

(** [HistoricalWeatherErrorHandler.handleAPIError]. *)
Definition handleAPIError (error : Raw) (context : option string)
    : HistoricalWeatherError :=
  match error with
  | RawClassified e => e
  | RawTypeError msg =>
      if Js.includes msg "fetch" then
        newNetworkError
          "Network connection failed. Please check your internet connection."
          (Some msg)
      else
        newHistoricalWeatherError (genericMessage (Some msg) context)
          "UNKNOWN_ERROR" None
  | RawObj o =>
      if hasStatus o then
        let status := statusOf o in
        if caseIs status 401 then
          newHistoricalWeatherError
            "Invalid API key. Please check your OpenWeatherMap API key configuration."
            "INVALID_API_KEY" (Some 401)
        else if caseIs status 403 then
          newHistoricalWeatherError
            "Access forbidden. Your API key may not have access to historical weather data."
            "ACCESS_FORBIDDEN" (Some 403)
        else if caseIs status 404 then
          newDataUnavailableError
            "Historical weather data is not available for the requested date and location."
            None
        else if caseIs status 429 then
          newAPILimitError
            "API rate limit exceeded. Please try again later."
            (retryAfterOf o)
        else if caseIs status 500 || caseIs status 502 || caseIs status 503 then
          newHistoricalWeatherError
            "Weather service is temporarily unavailable. Please try again later."
            "SERVICE_UNAVAILABLE" status
        else
          newHistoricalWeatherError
            ("Weather service error (" +:+ showStatus status
             +:+ "). Please try again.")
            "API_ERROR" status
      else
        newHistoricalWeatherError (genericMessage (rawMessage o) context)
          "UNKNOWN_ERROR" None
  | RawPrimitive =>
      newHistoricalWeatherError (genericMessage None context)
        "UNKNOWN_ERROR" None
  end.

Definition retryableCodes : list string :=
  ["NETWORK_ERROR"; "SERVICE_UNAVAILABLE"; "API_LIMIT_ERROR"].

Definition retryableStatusCodes : list Z := [429; 500; 502; 503; 504].

(** [HistoricalWeatherErrorHandler.isRetryable]. *)
Definition isRetryable (error : HistoricalWeatherError) : bool :=
  Js.array_includes retryableCodes (code error)
  || match statusCode error with
     | Some s => Js.array_includes retryableStatusCodes s
     | None => false
     end.

Definition baseDelay : Q := inject_Z 1000.
Definition maxDelay : Q := inject_Z 30000.

(** [HistoricalWeatherErrorHandler.getRetryDelay], in milliseconds;
    [random] is the value [Math.random ()] returns when it is called. *)
Definition getRetryDelay
    (random : Q) (error : HistoricalWeatherError) (attempt : nat) : Q :=
  if bool_decide (class error = ClassAPILimitError)
     && Js.truthy_int (retryAfter error)
  then
    match retryAfter error with
    | Some (Js.Int s) => (inject_Z s * inject_Z 1000)%Q
    | _ => 0%Q
    end
  else
    let delay :=
      Qmin (baseDelay * Qpower 2 (Z.of_nat attempt - 1))%Q maxDelay in
    let jitter := (random * (1 # 10) * delay)%Q in
    (delay + jitter)%Q.

(** What one invocation of the operation does. *)
Inductive Attempt (T : Type) :=
| Resolves (v : T)
| Throws (error : Raw).
Arguments Resolves {T} v.
Arguments Throws {T} error.

(** How [withRetry] settles; [Rejected None] is [throw lastError] with
    [lastError] never assigned. *)
Inductive Settled (T : Type) :=
| Fulfilled (v : T)
| Rejected (e : option HistoricalWeatherError).
Arguments Fulfilled {T} v.
Arguments Rejected {T} e.

(** A run of [withRetry]: how it settled, how many times the operation was
    invoked and the delays it slept, in order. *)
Record RetryRun (T : Type) := {
  settled : Settled T;
  invocations : nat;
  delays : list Q
}.
Arguments settled {T} _.
Arguments invocations {T} _.
Arguments delays {T} _.

Section WithRetry.
Context {T : Type}.
(** The operation, by the number of the invocation (it may answer
    differently each time), and the random draws, by attempt. *)
Variable operation : nat -> Attempt T.
Variable random : nat -> Q.
Variable maxAttempts : nat.
Variable context : string.

(** The [for] loop of [withRetry] from [attempt] on; [remaining] is
    [maxAttempts + 1 - attempt], the number of iterations left, so that
    [remaining = 0] is the exit [attempt > maxAttempts]. *)
Fixpoint retryLoop (remaining attempt : nat)
    (lastError : option HistoricalWeatherError)
    (calls : nat) (slept : list Q) : RetryRun T :=
  match remaining with
  | O => {| settled := Rejected lastError; invocations := calls;
            delays := slept |}
  | S remaining' =>
      match operation (S calls) with
      | Resolves v =>
          {| settled := Fulfilled v; invocations := S calls;
             delays := slept |}
      | Throws error =>
          let lastError := handleAPIError error (Some context) in
          if negb (isRetryable lastError) then
            {| settled := Rejected (Some lastError);
               invocations := S calls; delays := slept |}
          else if (attempt =? maxAttempts)%nat then
            {| settled := Rejected (Some lastError);
               invocations := S calls; delays := slept |}
          else
            let delay := getRetryDelay (random attempt) lastError attempt in
            retryLoop remaining' (S attempt) (Some lastError)
              (S calls) (slept ++ [delay])
      end
  end.

(** [withRetry (operation, maxAttempts, context)]. *)
Definition withRetry : RetryRun T :=
  retryLoop maxAttempts 1%nat None 0%nat [].
End WithRetry.

End Errors.

(* ===================================================================== *)
(** ** The two-tier cache manager *)
(* ===================================================================== *)

Module Cache.

Definition CACHE_EXPIRY_HOURS : Z := 24.
Definition ANALYTICS_EXPIRY_HOURS : Z := 6.
Definition msPerHour : Z := 3600000.

(** [d.setHours (d.getHours () + hours)], in the time zone of the host:
    the hours are added to the local time of the date. *)
Definition addHours (tz : Js.TimeZone) (t hours : Z) : Z :=
  Js.setLocal tz t (hours * msPerHour).

(** [request.error] of a failed IndexedDB request. *)
Inductive DbError :=
| DOMException (name : string).

(** How an IndexedDB request ends: [onsuccess], or [onerror] with its
    [request.error]. *)
Inductive IdbRequest :=
| Succeeds
| Fails (error : DbError).

(** A promise as the code that awaits it sees it: fulfilled, rejected,
    or never settled. *)
Inductive Promise (A E : Type) :=
| Resolve (a : A)
| Reject (e : E)
| Pending.
Arguments Resolve {A E} a.
Arguments Reject {A E} e.
Arguments Pending {A E}.

Inductive AnalysisType := trends | patterns | statistics.
Inductive TimeRange := range7d | range30d | range90d | range1y | custom.

Definition analysisTypeString (a : AnalysisType) : string :=
  match a with
  | trends => "trends"
  | patterns => "patterns"
  | statistics => "statistics"
  end.

Definition timeRangeString (r : TimeRange) : string :=
  match r with
  | range7d => "7d"
  | range30d => "30d"
  | range90d => "90d"
  | range1y => "1y"
  | custom => "custom"
  end.

(** [HistoricalWeatherCache]: an entry of the historical store.  [Payload]
    is [HistoricalWeatherData], which the cache never inspects. *)
Record HistoricalWeatherCache (Payload : Type) := {
  id : string;
  location : Js.Number * Js.Number;
  date : string;
  data : Payload;
  cachedAt : Z;
  expiresAt : Z
}.
Arguments id {Payload} _.
Arguments location {Payload} _.
Arguments date {Payload} _.
Arguments data {Payload} _.
Arguments cachedAt {Payload} _.
Arguments expiresAt {Payload} _.

(** [WeatherAnalyticsCache]: an entry of the analytics store. *)
Record WeatherAnalyticsCache (Analytics : Type) := {
  analyticsId : string;
  locationId : string;
  analysisType : AnalysisType;
  timeRange : TimeRange;
  analyticsData : Analytics;
  calculatedAt : Z;
  analyticsExpiresAt : Z
}.
Arguments analyticsId {Analytics} _.
Arguments locationId {Analytics} _.
Arguments analysisType {Analytics} _.
Arguments timeRange {Analytics} _.
Arguments analyticsData {Analytics} _.
Arguments calculatedAt {Analytics} _.
Arguments analyticsExpiresAt {Analytics} _.

(** The object stores of the IndexedDB database, keyed by [id]. *)
Record Database (Payload Analytics : Type) := {
  historical_weather : gmap string (HistoricalWeatherCache Payload);
  weather_analytics : gmap string (WeatherAnalyticsCache Analytics)
}.
Arguments historical_weather {Payload Analytics} _.
Arguments weather_analytics {Payload Analytics} _.

(** [HistoricalWeatherCacheManager]: [db] is the database seen through
    the handle, [None] when the handle is [null] (memory-only mode). *)
Record Manager (Payload Analytics : Type) := {
  db : option (Database Payload Analytics);
  memoryCache : gmap string (HistoricalWeatherCache Payload);
  analyticsMemoryCache : gmap string (WeatherAnalyticsCache Analytics)
}.
Arguments db {Payload Analytics} _.
Arguments memoryCache {Payload Analytics} _.
Arguments analyticsMemoryCache {Payload Analytics} _.

Section Manager.
Context {Payload Analytics : Type}.
Variable exponentForm : Q -> string.
(** The time zone of the host. *)
Variable tz : Js.TimeZone.

Local Abbreviation Entry := (HistoricalWeatherCache Payload).
Local Abbreviation AEntry := (WeatherAnalyticsCache Analytics).
Local Abbreviation State := (Manager Payload Analytics).

(** [generateHistoricalKey]. *)
Definition generateHistoricalKey (lat lon : Js.Number) (date : Z) : string :=
  let dateStr := Js.toISODate date in
  Js.toFixed exponentForm lat 4 +:+ "_"
    +:+ Js.toFixed exponentForm lon 4 +:+ "_" +:+ dateStr.

(** [generateAnalyticsKey]. *)
Definition generateAnalyticsKey
    (locationId : string) (analysisType : AnalysisType)
    (timeRange : TimeRange) : string :=
  locationId +:+ "_" +:+ analysisTypeString analysisType
    +:+ "_" +:+ timeRangeString timeRange.

(** [isExpired]: [new Date () > expiresAt]. *)
Definition isExpired (now expiresAt : Z) : bool := expiresAt <? now.

Definition setMemory (m : State) (k : string) (e : Entry) : State :=
  {| db := db m; memoryCache := <[k := e]> (memoryCache m);
     analyticsMemoryCache := analyticsMemoryCache m |}.

Definition setAnalyticsMemory (m : State) (k : string) (e : AEntry) : State :=
  {| db := db m; memoryCache := memoryCache m;
     analyticsMemoryCache := <[k := e]> (analyticsMemoryCache m) |}.

Definition setDb (m : State) (d : Database Payload Analytics) : State :=
  {| db := Some d; memoryCache := memoryCache m;
     analyticsMemoryCache := analyticsMemoryCache m |}.

(** [removeHistoricalWeather]; [del] is how the [store.delete] request
    ends.  The promise always resolves. *)
Definition removeHistoricalWeather
    (del : IdbRequest) (lat lon : Js.Number) (date : Z) (m : State) : State :=
  let key := generateHistoricalKey lat lon date in
  let m1 :=
    {| db := db m; memoryCache := delete key (memoryCache m);
       analyticsMemoryCache := analyticsMemoryCache m |} in
  match db m1 with
  | None => m1
  | Some d =>
      match del with
      | Succeeds =>
          setDb m1
            {| historical_weather := delete key (historical_weather d);
               weather_analytics := weather_analytics d |}
      | Fails _ => m1
      end
  end.

(** [getHistoricalWeather]; [get] is how the [store.get] request ends
    and [del] how the delete issued for an expired record ends. *)
Definition getHistoricalWeather
    (get del : IdbRequest) (now : Z) (lat lon : Js.Number) (date : Z)
    (m : State) : State * option Payload :=
  let key := generateHistoricalKey lat lon date in
  let fromDb :=
    match db m with
    | None => (m, None)
    | Some d =>
        match get with
        | Succeeds =>
            match historical_weather d !! key with
            | Some cached =>
                if negb (isExpired now (expiresAt cached))
                then (setMemory m key cached, Some (data cached))
                else (removeHistoricalWeather del lat lon date m, None)
            | None => (m, None)
            end
        | Fails _ => (m, None)
        end
    end in
  match memoryCache m !! key with
  | Some memoryData =>
      if negb (isExpired now (expiresAt memoryData))
      then (m, Some (data memoryData))
      else fromDb
  | None => fromDb
  end.

(** [setHistoricalWeather]; [put] is how the [store.put] request ends. *)
Definition setHistoricalWeather
    (put : IdbRequest) (now : Z) (lat lon : Js.Number) (date : Z)
    (payload : Payload) (m : State) : State * Promise unit DbError :=
  let key := generateHistoricalKey lat lon date in
  let expires := addHours tz now CACHE_EXPIRY_HOURS in
  let cacheEntry :=
    {| id := key; location := (lat, lon); date := Js.toISODate date;
       data := payload; cachedAt := now; expiresAt := expires |} in
  let m1 := setMemory m key cacheEntry in
  match db m1 with
  | None => (m1, Resolve tt)
  | Some d =>
      match put with
      | Succeeds =>
          (setDb m1
             {| historical_weather := <[key := cacheEntry]> (historical_weather d);
                weather_analytics := weather_analytics d |},
           Resolve tt)
      | Fails error => (m1, Reject error)
      end
  end.

(** [removeAnalytics]. *)
Definition removeAnalytics
    (del : IdbRequest) (locationId : string) (analysisType : AnalysisType)
    (timeRange : TimeRange) (m : State) : State :=
  let key := generateAnalyticsKey locationId analysisType timeRange in
  let m1 :=
    {| db := db m; memoryCache := memoryCache m;
       analyticsMemoryCache := delete key (analyticsMemoryCache m) |} in
  match db m1 with
  | None => m1
  | Some d =>
      match del with
      | Succeeds =>
          setDb m1
            {| historical_weather := historical_weather d;
               weather_analytics := delete key (weather_analytics d) |}
      | Fails _ => m1
      end
  end.

(** [getAnalytics]. *)
Definition getAnalytics
    (get del : IdbRequest) (now : Z) (locationId : string)
    (analysisType : AnalysisType) (timeRange : TimeRange)
    (m : State) : State * option Analytics :=
  let key := generateAnalyticsKey locationId analysisType timeRange in
  let fromDb :=
    match db m with
    | None => (m, None)
    | Some d =>
        match get with
        | Succeeds =>
            match weather_analytics d !! key with
            | Some cached =>
                if negb (isExpired now (analyticsExpiresAt cached))
                then (setAnalyticsMemory m key cached,
                      Some (analyticsData cached))
                else (removeAnalytics del locationId analysisType timeRange m,
                      None)
            | None => (m, None)
            end
        | Fails _ => (m, None)
        end
    end in
  match analyticsMemoryCache m !! key with
  | Some e =>
      if negb (isExpired now (analyticsExpiresAt e))
      then (m, Some (analyticsData e))
      else fromDb
  | None => fromDb
  end.

(** [setAnalytics]. *)
Definition setAnalytics
    (put : IdbRequest) (now : Z) (locationId : string)
    (analysisType : AnalysisType) (timeRange : TimeRange)
    (payload : Analytics) (m : State) : State * Promise unit DbError :=
  let key := generateAnalyticsKey locationId analysisType timeRange in
  let expires := addHours tz now ANALYTICS_EXPIRY_HOURS in
  let cacheEntry :=
    {| analyticsId := key; locationId := locationId;
       analysisType := analysisType; timeRange := timeRange;
       analyticsData := payload; calculatedAt := now;
       analyticsExpiresAt := expires |} in
  let m1 := setAnalyticsMemory m key cacheEntry in
  match db m1 with
  | None => (m1, Resolve tt)
  | Some d =>
      match put with
      | Succeeds =>
          (setDb m1
             {| historical_weather := historical_weather d;
                weather_analytics := <[key := cacheEntry]> (weather_analytics d) |},
           Resolve tt)
      | Fails error => (m1, Reject error)
      end
  end.

(** [clearExpiredCache].  The cursors over the [expiresAt] indexes run
    over [IDBKeyRange.upperBound (now)], bound included; the loops over
    the memory maps test [isExpired]. *)
Definition clearExpiredCache (now : Z) (m : State) : State :=
  match db m with
  | None => m
  | Some d =>
      {| db := Some
           {| historical_weather :=
                filter (fun kv => (expiresAt kv.2 <=? now) = false)
                  (historical_weather d);
              weather_analytics :=
                filter (fun kv => (analyticsExpiresAt kv.2 <=? now) = false)
                  (weather_analytics d) |};
         memoryCache :=
           filter (fun kv => isExpired now (expiresAt kv.2) = false)
             (memoryCache m);
         analyticsMemoryCache :=
           filter (fun kv => isExpired now (analyticsExpiresAt kv.2) = false)
             (analyticsMemoryCache m) |}
  end.

(** [clearAllCache]; [tx] is how the transaction over both stores
    ends. *)
Definition clearAllCache (tx : IdbRequest) (m : State)
    : State * Promise unit DbError :=
  let m1 :=
    {| db := db m; memoryCache := ∅; analyticsMemoryCache := ∅ |} in
  match db m1 with
  | None => (m1, Resolve tt)
  | Some d =>
      match tx with
      | Succeeds =>
          (setDb m1 {| historical_weather := ∅; weather_analytics := ∅ |},
           Resolve tt)
      | Fails error => (m1, Reject error)
      end
  end.

(** [close]. *)
Definition close (m : State) : State :=
  {| db := None; memoryCache := memoryCache m;
     analyticsMemoryCache := analyticsMemoryCache m |}.
End Manager.

End Cache.

(* ===================================================================== *)
(** ** Life cycle and statistics of the cache manager *)
(* ===================================================================== *)

Module Lifecycle.
Import Cache.

(** What [getCacheStats] resolves with. *)
Record CacheStats := {
  historicalCount : nat;
  analyticsCount : nat;
  memorySize : nat;
  estimatedStorageSize : nat
}.

(** How the [JSON.stringify] of [getCacheStats] ends: it returns the
    text, or it throws a [TypeError], as it does on an entry whose data
    holds a cycle or a BigInt. *)
Inductive Stringify :=
| Returns
| ThrowsTypeError.

(** What a call of [getCacheStats] meets: how [JSON.stringify] ends and
    how the two [count] requests end. *)
Record StatsRequests := {
  stringify : Stringify;
  countHistorical : IdbRequest;
  countAnalytics : IdbRequest
}.

(** The [TypeError] of [JSON.stringify]. *)
Inductive TypeError :=
| NotSerializable.

(** [JSON.stringify (array).length], from the lengths of the texts of the
    elements: the brackets, the elements and a comma between two. *)
Definition stringifyLength (lens : list nat) : nat :=
  match lens with
  | [] => 2
  | _ => S (list_sum (map S lens))
  end.

Section Lifecycle.
Context {Payload Analytics : Type}.
(** The length of [JSON.stringify] of one entry. *)
Variable entryJson : HistoricalWeatherCache Payload -> nat.
Variable analyticsJson : WeatherAnalyticsCache Analytics -> nat.

Local Abbreviation State := (Manager Payload Analytics).

(** [new HistoricalWeatherCacheManager ()]. *)
Definition newManager : State :=
  {| db := None; memoryCache := ∅; analyticsMemoryCache := ∅ |}.

(** [initialize]; [window] is whether [window] is defined, [open] how the
    [indexedDB.open] request ends and [stored] the database it opens. *)
Definition initialize
    (window : bool) (open : IdbRequest) (stored : Database Payload Analytics)
    (m : State) : State * Promise unit DbError :=
  if negb window then (m, Resolve tt)
  else
    match open with
    | Succeeds => (setDb m stored, Resolve tt)
    | Fails error => (m, Reject error)
    end.

(** [getCacheManager]; the first component is the module variable
    [cacheManagerInstance], assigned before [initialize] is awaited. *)
Definition getCacheManager
    (window : bool) (open : IdbRequest) (stored : Database Payload Analytics)
    (cacheManagerInstance : option State)
    : option State * Promise State DbError :=
  match cacheManagerInstance with
  | Some m => (Some m, Resolve m)
  | None =>
      let '(m, r) := initialize window open stored newManager in
      (Some m,
       match r with
       | Resolve _ => Resolve m
       | Reject error => Reject error
       | Pending => Pending
       end)
  end.

(** How the promise of [getCacheStats] settles.  [JSON.stringify] runs
    first, in the body of the function.  With the database open the
    promise is resolved by the [onsuccess] handler of the second [count]
    request that succeeds; no handler is set for a request that fails,
    and the promise then stays pending. *)
Definition getCacheStatsSettles (requests : StatsRequests) (m : State)
    : Promise unit TypeError :=
  match stringify requests with
  | ThrowsTypeError => Reject NotSerializable
  | Returns =>
      match db m with
      | None => Resolve tt
      | Some _ =>
          match countHistorical requests, countAnalytics requests with
          | Succeeds, Succeeds => Resolve tt
          | _, _ => Pending
          end
      end
  end.

(** [getCacheStats]: the statistics it resolves with when it does. *)
Definition getCacheStats (m : State) : CacheStats :=
  let memoryUsage :=
    stringifyLength
      (map entryJson (map_to_list (memoryCache m)).*2
       ++ map analyticsJson (map_to_list (analyticsMemoryCache m)).*2)%list in
  match db m with
  | Some d =>
      let historical := size (historical_weather d) in
      let analytics := size (weather_analytics d) in
      {| historicalCount := historical; analyticsCount := analytics;
         memorySize := memoryUsage;
         estimatedStorageSize := ((historical + analytics) * 1000)%nat |}
  | None =>
      {| historicalCount := size (memoryCache m);
         analyticsCount := size (analyticsMemoryCache m);
         memorySize := memoryUsage; estimatedStorageSize := 0 |}
  end.
End Lifecycle.

End Lifecycle.

(* ===================================================================== *)
(** ** Read-through wrappers around a fetch function *)
(* ===================================================================== *)

Module Fetching.
Import Cache.

(** What the wrappers can reject with: the hook's
    [Error ('Cache manager not initialized')], the [request.error] of a
    failed IndexedDB request, the [TypeError] of [getCacheStats], or
    whatever the fetch function rejects with. *)
Inductive Thrown (E : Type) :=
| NotInitialized
| StorageError (error : DbError)
| StatsError (error : Lifecycle.TypeError)
| FetchError (error : E).
Arguments NotInitialized {E}.
Arguments StorageError {E} error.
Arguments StatsError {E} error.
Arguments FetchError {E} error.

(** The state an asynchronous function runs in: the module variable
    [cacheManagerInstance] with the state of the manager it holds,
    whether the static field [CachedHistoricalWeatherAPI.cacheManager] is
    assigned (it then holds the same manager), and the number of times
    the fetch function has been invoked. *)
Record World (Payload Analytics : Type) := {
  cacheManagerInstance : option (Manager Payload Analytics);
  apiCacheManager : bool;
  fetchCalls : nat
}.
Arguments cacheManagerInstance {Payload Analytics} _.
Arguments apiCacheManager {Payload Analytics} _.
Arguments fetchCalls {Payload Analytics} _.

(** The manager the wrappers hold: the singleton. *)
Definition manager {Payload Analytics : Type} (w : World Payload Analytics)
    : Manager Payload Analytics :=
  match cacheManagerInstance w with
  | Some m => m
  | None => Lifecycle.newManager
  end.

(** The world after a method has left the manager in state [m]. *)
Definition setManager {Payload Analytics : Type}
    (w : World Payload Analytics) (m : Manager Payload Analytics)
    : World Payload Analytics :=
  {| cacheManagerInstance := Some m; apiCacheManager := apiCacheManager w;
     fetchCalls := fetchCalls w |}.

Section Async.
Context {Payload Analytics E : Type}.
Variable exponentForm : Q -> string.
Variable tz : Js.TimeZone.
(** The fetch function, by the number of the invocation. *)
Variable fetchFunction : nat -> Promise Payload E.

Local Abbreviation W := (World Payload Analytics).

(** An [async] function body: it runs in a world and settles, or stays
    pending. *)
Definition Async (A : Type) : Type := W -> W * Promise A (Thrown E).

Definition ret {A} (a : A) : Async A := fun w => (w, Resolve a).

Definition throw {A} (e : Thrown E) : Async A := fun w => (w, Reject e).

(** [const x = await c; k x]. *)
Definition bind {A B} (c : Async A) (k : A -> Async B) : Async B :=
  fun w =>
    match c w with
    | (w1, Resolve a) => k a w1
    | (w1, Reject e) => (w1, Reject e)
    | (w1, Pending) => (w1, Pending)
    end.

(** [try { c } catch (err) { handler err }]. *)
Definition tryCatch {A} (c : Async A) (handler : Thrown E -> Async A) : Async A :=
  fun w =>
    match c w with
    | (w1, Resolve a) => (w1, Resolve a)
    | (w1, Reject e) => handler e w1
    | (w1, Pending) => (w1, Pending)
    end.

Local Notation "x <- c ;; k" := (bind c (fun x => k))
  (at level 100, c at next level, right associativity).

(** [await fetchFunction ()]. *)
Definition callFetch : Async Payload :=
  fun w =>
    let n := S (fetchCalls w) in
    ({| cacheManagerInstance := cacheManagerInstance w;
        apiCacheManager := apiCacheManager w; fetchCalls := n |},
     match fetchFunction n with
     | Resolve v => Resolve v
     | Reject e => Reject (FetchError e)
     | Pending => Pending
     end).

(** [await cacheManager.getHistoricalWeather (lat, lon, date)]. *)
Definition managerGet (get del : IdbRequest) (now : Z)
    (lat lon : Js.Number) (date : Z) : Async (option Payload) :=
  fun w =>
    let '(m, r) :=
      getHistoricalWeather exponentForm get del now lat lon date (manager w) in
    (setManager w m, Resolve r).

(** [await cacheManager.setHistoricalWeather (lat, lon, date, data)]. *)
Definition managerSet (put : IdbRequest) (now : Z)
    (lat lon : Js.Number) (date : Z) (payload : Payload) : Async unit :=
  fun w =>
    let '(m, r) :=
      setHistoricalWeather exponentForm tz put now lat lon date payload
        (manager w) in
    (setManager w m,
     match r with
     | Resolve u => Resolve u
     | Reject e => Reject (StorageError e)
     | Pending => Pending
     end).

(** [await cacheManager.getCacheStats ()]; what it resolves with is
    display state. *)
Definition managerStats (stats : Lifecycle.StatsRequests) : Async unit :=
  fun w =>
    (w,
     match Lifecycle.getCacheStatsSettles stats (manager w) with
     | Resolve u => Resolve u
     | Reject e => Reject (StatsError e)
     | Pending => Pending
     end).

(** [CachedHistoricalWeatherAPI.initialize]: the static field is assigned
    when [getCacheManager] has resolved.  [window], [open] and [stored]
    are what [HistoricalWeatherCacheManager.initialize] meets. *)
Definition cachedInitialize
    (window : bool) (open : IdbRequest) (stored : Database Payload Analytics)
    : Async unit :=
  fun w =>
    let '(instance, r) :=
      Lifecycle.getCacheManager window open stored (cacheManagerInstance w) in
    match r with
    | Resolve _ =>
        ({| cacheManagerInstance := instance; apiCacheManager := true;
            fetchCalls := fetchCalls w |}, Resolve tt)
    | Reject error =>
        ({| cacheManagerInstance := instance;
            apiCacheManager := apiCacheManager w;
            fetchCalls := fetchCalls w |}, Reject (StorageError error))
    | Pending =>
        ({| cacheManagerInstance := instance;
            apiCacheManager := apiCacheManager w;
            fetchCalls := fetchCalls w |}, Pending)
    end.

(** [CachedHistoricalWeatherAPI.getHistoricalWeather].  The cache is read
    at [now] and written at [later]. *)
Definition cachedGetHistoricalWeather
    (window : bool) (open : IdbRequest) (stored : Database Payload Analytics)
    (get del put : IdbRequest) (now later : Z)
    (lat lon : Js.Number) (date : Z) : Async Payload :=
  _ <- (fun w =>
          if negb (apiCacheManager w) then cachedInitialize window open stored w
          else ret tt w) ;;
  cached <- managerGet get del now lat lon date ;;
  match cached with
  | Some c => ret c
  | None =>
      payload <- callFetch ;;
      _ <- managerSet put later lat lon date payload ;;
      ret payload
  end.

(** The state of [useHistoricalWeatherCache] that its callbacks read:
    whether [cacheManager] is set (it then holds the singleton), and
    [isInitialized]. *)
Record Hook := {
  cacheManager : bool;
  isInitialized : bool
}.

(** The hook's [getHistoricalWeather]: a failure of the manager is logged
    and answered by [null]. *)
Definition hookGetHistoricalWeather (h : Hook)
    (get del : IdbRequest) (now : Z)
    (lat lon : Js.Number) (date : Z) : Async (option Payload) :=
  if negb (cacheManager h) then throw NotInitialized
  else tryCatch (managerGet get del now lat lon date) (fun _ => ret None).

(** The hook's [setHistoricalWeather]: after the write it awaits
    [getCacheStats], inside the same [try]; a failure of either is logged
    and thrown again. *)
Definition hookSetHistoricalWeather (h : Hook)
    (put : IdbRequest) (stats : Lifecycle.StatsRequests) (now : Z)
    (lat lon : Js.Number) (date : Z) (payload : Payload) : Async unit :=
  if negb (cacheManager h) then throw NotInitialized
  else
    tryCatch
      (_ <- managerSet put now lat lon date payload ;;
       managerStats stats)
      (fun err => throw err).

(** [fetchWithCache] of [useCachedHistoricalWeather]. *)
Definition fetchWithCache (h : Hook)
    (get del put : IdbRequest) (stats : Lifecycle.StatsRequests)
    (now later : Z) (lat lon : Js.Number) (date : Z) : Async Payload :=
  if negb (isInitialized h) then callFetch
  else
    tryCatch
      (cached <- hookGetHistoricalWeather h get del now lat lon date ;;
       match cached with
       | Some c => ret c
       | None =>
           payload <- callFetch ;;
           _ <- hookSetHistoricalWeather h put stats later lat lon date payload ;;
           ret payload
       end)
      (fun _ => callFetch).

(** A call from a world in which the singleton is [m], the static
    wrapper holds it and the fetch function has not run yet. *)
Definition start (m : Manager Payload Analytics) : W :=
  {| cacheManagerInstance := Some m; apiCacheManager := true;
     fetchCalls := 0 |}.

(** The world of a page that has just loaded: no manager yet. *)
Definition fresh : W :=
  {| cacheManagerInstance := None; apiCacheManager := false;
     fetchCalls := 0 |}.
End Async.

End Fetching.

(* ===================================================================== *)
(** ** Messages, suggested actions and log levels *)
(* ===================================================================== *)

Module Messages.
Import Errors.

(** [HistoricalWeatherErrorHandler.getUserFriendlyMessage]. *)
Definition getUserFriendlyMessage (error : HistoricalWeatherError) : string :=
  let c := code error in
  if String.eqb c "DATE_VALIDATION_ERROR" then
    "Please select a valid date. Historical data is only available for past dates within the last year."
  else if String.eqb c "API_LIMIT_ERROR" then
    let retryMessage :=
      if bool_decide (class error = ClassAPILimitError)
         && Js.truthy_int (retryAfter error)
      then
        " Please try again in "
        +:+ match retryAfter error with
            | Some (Js.Int s) => pretty s
            | _ => ""
            end
        +:+ " seconds."
      else " Please try again in a few minutes." in
    "Too many requests." +:+ retryMessage
  else if String.eqb c "DATA_UNAVAILABLE_ERROR" then
    "Weather data is not available for the selected date. Try a more recent date or check if the location is valid."
  else if String.eqb c "NETWORK_ERROR" then
    "Unable to connect to weather service. Please check your internet connection and try again."
  else if String.eqb c "INVALID_API_KEY" then
    "Weather service configuration error. Please contact support."
  else if String.eqb c "ACCESS_FORBIDDEN" then
    "Historical weather data access is not available with your current plan."
  else if String.eqb c "SERVICE_UNAVAILABLE" then
    "Weather service is temporarily unavailable. Please try again later."
  else
    "Unable to fetch weather data. Please try again.".

(** [HistoricalWeatherErrorHandler.getSuggestedActions]. *)
Definition getSuggestedActions (error : HistoricalWeatherError) : list string :=
  let c := code error in
  if String.eqb c "DATE_VALIDATION_ERROR" then
    ["Select a date within the past year";
     "Ensure the date is not in the future"]
  else if String.eqb c "API_LIMIT_ERROR" then
    ["Wait a few minutes before trying again";
     "Reduce the frequency of requests"]
  else if String.eqb c "DATA_UNAVAILABLE_ERROR" then
    ["Try a more recent date"; "Verify the location is correct";
     "Check if data exists for nearby dates"]
  else if String.eqb c "NETWORK_ERROR" then
    ["Check your internet connection"; "Try refreshing the page";
     "Disable any VPN or proxy"]
  else if String.eqb c "INVALID_API_KEY" || String.eqb c "ACCESS_FORBIDDEN" then
    ["Contact support for assistance"]
  else if String.eqb c "SERVICE_UNAVAILABLE" then
    ["Try again in a few minutes"; "Check service status"]
  else
    ["Try again"; "Refresh the page";
     "Contact support if the problem persists"].

(** The console method [logError] writes with. *)
Inductive LogLevel := ConsoleError | ConsoleWarn | ConsoleInfo.

(** [HistoricalWeatherErrorHandler.logError]: the level it logs at. *)
Definition logError (error : HistoricalWeatherError) : LogLevel :=
  if match statusCode error with
     | Some s => negb (s =? 0) && (500 <=? s)
     | None => false
     end
  then ConsoleError
  else if String.eqb (code error) "NETWORK_ERROR"
          || bool_decide (statusCode error = Some 429)
  then ConsoleWarn
  else ConsoleInfo.

End Messages.

(* ===================================================================== *)
(** ** The API client that calls the retry engine *)
(* ===================================================================== *)

Module Api.
Import Errors.

(** What [fetch] and the reading of the response give: a rejection with a
    [TypeError], or a response with its status and what [json ()] and the
    transformation of the body give (data, or something thrown). *)
Inductive FetchOutcome (T : Type) :=
| NetworkFailure (msg : string)
| Response (status : Z) (body : Attempt T).
Arguments NetworkFailure {T} msg.
Arguments Response {T} status body.

(** [response.ok]. *)
Definition ok (status : Z) : bool := (200 <=? status) && (status <=? 299).

(** The number of days before 1970-01-01 of a civil date; a day of the
    month past the end of the month runs into the next. *)
Definition daysFromCivil (y m d : Z) : Z :=
  let y' := if m <=? 2 then y - 1 else y in
  let era := y' / 400 in
  let yoe := y' - era * 400 in
  let mp := (m + 9) mod 12 in
  let doy := (153 * mp + 2) / 5 + d - 1 in
  let doe := yoe * 365 + yoe / 4 - yoe / 100 + doy in
  era * 146097 + doe - 719468.

(** The time part of [toISOString]. *)
Definition toISOTime (t : Z) : string :=
  let ms := t mod Js.msPerDay in
  Js.padZeros 2 (ms / 3600000) +:+ ":" +:+ Js.padZeros 2 (ms / 60000 mod 60)
  +:+ ":" +:+ Js.padZeros 2 (ms / 1000 mod 60)
  +:+ "." +:+ Js.padZeros 3 (ms mod 1000).

(** [date.toISOString ()]. *)
Definition toISOString (t : Z) : string :=
  Js.toISODate t +:+ "T" +:+ toISOTime t +:+ "Z".

(** What a call of [getHistoricalWeather] gives: the [RangeError] that
    [toISOString] throws on the invalid date, before the retry engine is
    entered, or the run it settles with (a check that throws is a run of
    no invocation). *)
Inductive Call (T : Type) :=
| ThrowsRangeError
| Settles (run : RetryRun T).
Arguments ThrowsRangeError {T}.
Arguments Settles {T} run.

Section Client.
Context {T : Type}.
(** The time zone of the host. *)
Variable tz : Js.TimeZone.

(** [d.setHours (23, 59, 59, 999)]. *)
Definition endOfDay (t : Z) : Z :=
  Js.UTC tz (Js.Day (Js.LocalTime tz t) * Js.msPerDay + 86399999).

(** [d.setFullYear (d.getFullYear () - 1)]. *)
Definition oneYearBefore (t : Z) : Z :=
  let local := Js.LocalTime tz t in
  let '(y, m, d) := Js.civil (Js.Day local) in
  Js.UTC tz (daysFromCivil (y - 1) m d * Js.msPerDay + local mod Js.msPerDay).

(** [d.setDate (d.getDate () - n)]. *)
Definition daysBefore (t n : Z) : Z := Js.setLocal tz t (- (n * Js.msPerDay)).

(** The operation [getHistoricalWeather] hands to [withRetry], at its
    n-th invocation: [historical n] is what the request to the historical
    API gives, [current n] what the request to the current-weather API
    gives if it is made, and [clock n] the instant of the invocation. *)
Definition operation
    (historical current : nat -> FetchOutcome T) (clock : nat -> Z)
    (date : Z) (n : nat) : Attempt T :=
  match historical n with
  | NetworkFailure msg => Throws (RawTypeError msg)
  | Response status body =>
      if ok status then body
      else if status =? 401 then
        Throws (RawClassified
          (newHistoricalWeatherError
             "Invalid API key for historical weather data"
             "INVALID_API_KEY" (Some 401)))
      else if status =? 429 then
        Throws (RawClassified (newAPILimitError "Rate limit exceeded" None))
      else if daysBefore (clock n) 5 <=? date then
        match current n with
        | NetworkFailure msg => Throws (RawTypeError msg)
        | Response cstatus cbody =>
            if ok cstatus then cbody
            else if cstatus =? 401 then
              Throws (RawClassified
                (newHistoricalWeatherError "Invalid API key"
                   "INVALID_API_KEY" (Some 401)))
            else if cstatus =? 429 then
              Throws (RawClassified
                (newAPILimitError "Rate limit exceeded" None))
            else
              Throws (RawClassified
                (newDataUnavailableError
                   "Historical weather data is not available for this date"
                   None))
        end
      else
        Throws (RawClassified
          (newDataUnavailableError
             "Historical weather data is not available for this date" None))
  end.

(** [HistoricalWeatherAPI.getHistoricalWeather], called at instant [now];
    [apiKey] is the environment variable, [random] the draws of the
    retry engine.  Both comparisons are false on the invalid date; the
    context string, an argument of [withRetry], is built before
    [withRetry] is called. *)
Definition getHistoricalWeather
    (apiKey : option string) (now : Z)
    (historical current : nat -> FetchOutcome T) (clock : nat -> Z)
    (random : nat -> Q) (date : Js.Date) : Call T :=
  let thrown e :=
    Settles {| settled := Rejected (Some e); invocations := 0; delays := [] |} in
  if negb (Js.truthy_string (default "" apiKey)) then
    thrown (newHistoricalWeatherError
              "OpenWeatherMap API key is not configured"
              "INVALID_API_KEY" (Some 401))
  else if Js.dateGt date (Some (endOfDay now)) then
    thrown (newDateValidationError
              "Cannot fetch weather data for future dates")
  else if Js.dateLt date (Some (oneYearBefore now)) then
    thrown (newDataUnavailableError
              "Historical data is only available for the past year" None)
  else
    match date with
    | None => ThrowsRangeError
    | Some d =>
        Settles
          (withRetry (operation historical current clock d) random 3
             ("fetch historical weather for " +:+ toISOString d))
    end.

(** [Math.ceil (a / b)] for a positive [b]. *)
Definition ceilDiv (a b : Z) : Z := - ((- a) / b).

(** The [while] loop of [getWeatherRange] from [currentDate] on, with the
    results so far and the number of days asked for; [fetchDay] is what
    [getHistoricalWeather] settles with for a day, [None] when it
    rejects.  Each turn ends with [currentDate.setDate
    (currentDate.getDate () + 1)].  The result is [None] when the loop
    has not ended after [fuel] turns. *)
Fixpoint rangeLoop (fetchDay : Z -> option T) (endDate : Z)
    (fuel : nat) (currentDate : Z) (results : list T) (calls : nat)
    : option (list T * nat) :=
  match fuel with
  | O => None
  | S fuel' =>
      if currentDate <=? endDate then
        let results' :=
          match fetchDay currentDate with
          | Some dayData => (results ++ [dayData])%list
          | None => results
          end in
        rangeLoop fetchDay endDate fuel'
          (Js.setLocal tz currentDate Js.msPerDay) results' (S calls)
      else Some (results, calls)
  end.

(** [HistoricalWeatherAPI.getWeatherRange], called at instant [today]:
    the days it returns and the number of days it asked for, or the
    message of the [Error] it throws; [None] when the loop has not ended
    after [fuel] turns.  Every comparison with the invalid date is false,
    and so is [NaN > maxDays]. *)
Definition getWeatherRange
    (fuel : nat) (today : Z) (fetchDay : Z -> option T)
    (startDate endDate : Js.Date)
    : option (Cache.Promise (list T * nat) string) :=
  if Js.dateGt startDate endDate then
    Some (Cache.Reject "Start date must be before end date")
  else if Js.dateGt startDate (Some today) then
    Some (Cache.Reject "Start date cannot be in the future")
  else
    let maxDays := 31 in
    let tooLarge :=
      match startDate, endDate with
      | Some s, Some e => maxDays <? ceilDiv (e - s) Js.msPerDay
      | _, _ => false
      end in
    if tooLarge then
      Some (Cache.Reject
              ("Date range too large. Maximum " +:+ pretty maxDays
               +:+ " days allowed."))
    else
      match startDate, endDate with
      | Some s, Some e =>
          match rangeLoop fetchDay e fuel s [] 0%nat with
          | Some r => Some (Cache.Resolve r)
          | None => None
          end
      | _, _ => Some (Cache.Resolve ([], 0%nat))
      end.
End Client.


(** A string as its UTF-16 code units. *)
Definition CodeUnits : Type := list N.

(** The character class of the regular expression: the less-than and
    greater-than signs, the double and single quotes and the ampersand. *)
Definition dangerous (c : N) : bool :=
  ((c =? 60) || (c =? 62) || (c =? 34) || (c =? 39) || (c =? 38))%N.

(** White space and line terminators, which [trim] strips. *)
Definition isTrimSpace (c : N) : bool :=
  (((9 <=? c) && (c <=? 13)) || (c =? 32) || (c =? 160) || (c =? 5760)
   || ((8192 <=? c) && (c <=? 8202)) || (c =? 8232) || (c =? 8233)
   || (c =? 8239) || (c =? 8287) || (c =? 12288) || (c =? 65279))%N.

Fixpoint trimStart (s : CodeUnits) : CodeUnits :=
  match s with
  | c :: rest => if isTrimSpace c then trimStart rest else s
  | [] => []
  end.

(** [s.trim ()]. *)
Definition trim (s : CodeUnits) : CodeUnits :=
  rev (trimStart (rev (trimStart s))).

(** [HistoricalWeatherValidator.sanitizeUserInput] on a string. *)
Definition sanitizeUserInput (input : CodeUnits) : CodeUnits :=
  firstn 1000 (trim (List.filter (fun c => negb (dangerous c)) input)).

End Api.

(* ===================================================================== *)
(** ** Vocabulary of the properties *)
(* ===================================================================== *)

Module Props.
Import Errors Cache.

(** The delay a rate-limit error asks for, in seconds: the [retryAfter] of
    an [APILimitError] when it is a number other than 0. *)
Definition serverDelay (e : HistoricalWeatherError) : option Z :=
  match class e, retryAfter e with
  | ClassAPILimitError, Some (Js.Int s) => if s =? 0 then None else Some s
  | _, _ => None
  end.

(** [baseDelay * 2^(attempt-1)], in milliseconds. *)
Definition backoff (attempt : nat) : Q :=
  (baseDelay * Qpower 2 (Z.of_nat attempt - 1))%Q.

(** The delay slept after [attempt] is the one the server asked for, or
    lies between the exponential back-off and [maxDelay * 1.1]. *)
Definition delayWithin
    (e : HistoricalWeatherError) (attempt : nat) (d : Q) : Prop :=
  match serverDelay e with
  | Some s => (d == inject_Z s * inject_Z 1000)%Q
  | None => (backoff attempt <= d)%Q /\ (d <= maxDelay * (11 # 10))%Q
  end.

(** A coordinate lies less than half a unit of the fourth decimal place
    from the grid value [g / 10^4]. *)
Definition nearGrid (q : Q) (g : Z) : Prop :=
  (inject_Z g - (1 # 2) < q * inject_Z 10000)%Q
  /\ (q * inject_Z 10000 < inject_Z g + (1 # 2))%Q.

(** The magnitudes [toFixed] prints in fixed notation. *)
Definition belowExponentForm (q : Q) : Prop :=
  (Qabs q < inject_Z (10 ^ 21))%Q.

(** The raw failures that are retried once classified: a retryable error
    of the taxonomy, a [TypeError] whose message mentions "fetch", and an
    object whose [status || statusCode] is one of the retryable status
    codes. *)
Definition retryableRaw (r : Raw) : Prop :=
  match r with
  | RawClassified e => isRetryable e = true
  | RawTypeError msg => Js.includes msg "fetch" = true
  | RawObj o =>
      hasStatus o = true
      /\ In (statusOf o) [Some 429; Some 500; Some 502; Some 503; Some 504]
  | RawPrimitive => False
  end.

(** How a run of [withRetry] ended, read against the operation: it
    fulfils with what the last invocation resolved with, or rejects with
    the classified failure of the last invocation, which is not retryable
    unless the attempts are used up. *)
Definition endsProperly {T : Type}
    (operation : nat -> Attempt T) (maxAttempts : nat) (context : string)
    (run : RetryRun T) : Prop :=
  match settled run with
  | Fulfilled v => operation (invocations run) = Resolves v
  | Rejected (Some e) =>
      exists raw,
        operation (invocations run) = Throws raw
        /\ e = handleAPIError raw (Some context)
        /\ (isRetryable e = false \/ invocations run = maxAttempts)
  | Rejected None => False
  end.

(** By how much the offset of local time grows between the instant [t]
    and the local time [delta] milliseconds later. *)
Definition offsetGain (tz : Js.TimeZone) (t delta : Z) : Z :=
  Js.offsetOfLocal tz (Js.LocalTime tz t + delta) - Js.offsetAt tz t.

(** Putting the local clock [hours] hours forward gives a later instant:
    the offset never grows by that much in between. *)
Definition clockAdvances (tz : Js.TimeZone) (hours : Z) : Prop :=
  forall t, offsetGain tz t (hours * msPerHour) < hours * msPerHour.



(** An entry is filed under its own [id] and expires after it was
    written. *)
Definition wellFormedEntry {Payload : Type}
    (k : string) (e : HistoricalWeatherCache Payload) : Prop :=
  id e = k /\ cachedAt e < expiresAt e.

Definition wellFormedAnalytics {Analytics : Type}
    (k : string) (e : WeatherAnalyticsCache Analytics) : Prop :=
  analyticsId e = k /\ calculatedAt e < analyticsExpiresAt e.

(** Every entry of the memory maps and of the stores is well formed. *)
Definition wellFormed {Payload Analytics : Type}
    (m : Manager Payload Analytics) : Prop :=
  map_Forall wellFormedEntry (memoryCache m)
  /\ map_Forall wellFormedAnalytics (analyticsMemoryCache m)
  /\ match db m with
     | Some d =>
         map_Forall wellFormedEntry (historical_weather d)
         /\ map_Forall wellFormedAnalytics (weather_analytics d)
     | None => True
     end.

(** A reading of keys, used to show that analytics keys do not collide:
    what precedes the last low line of a string, and what follows it. *)
Fixpoint splitLast (s : string) : option (string * string) :=
  match s with
  | EmptyString => None
  | String c rest =>
      match splitLast rest with
      | Some (a, b) => Some (String c a, b)
      | None => if Ascii.eqb c "_" then Some (EmptyString, rest) else None
      end
  end.

(** The checks [HistoricalWeatherAPI.getHistoricalWeather] makes before
    it calls the retry engine all pass. *)
Definition validRequest
    (tz : Js.TimeZone) (apiKey : option string) (now date : Z) : Prop :=
  Js.truthy_string (default "" apiKey) = true
  /\ date <= Api.endOfDay tz now
  /\ Api.oneYearBefore tz now <= date.

(** A response status that is neither a success nor one of the two
    statuses the operation throws a specific error for. *)
Definition otherFailure (status : Z) : Prop :=
  Api.ok status = false /\ status <> 401 /\ status <> 429.

End Props.

(* ===================================================================== *)
(** ** Concrete inputs *)
(* ===================================================================== *)

Module Samples.
Import Errors Cache Fetching.

Definition exponentForm : Q -> string := fun _ => "1e+21".

(** UTC as the time zone of the host. *)
Definition utc : Js.TimeZone := Js.fixedOffset 0.

(** America/New_York in 2023: five hours behind UTC, four between
    2023-03-12 07:00 UTC and 2023-11-05 06:00 UTC.  The local times from
    02:00 to 03:00 of 12 March are skipped and those from 01:00 to 02:00
    of 5 November repeated. *)
Definition newYork : Js.TimeZone :=
  {| Js.offsetAt := fun t =>
       if (1678604400000 <=? t) && (t <? 1699164000000)
       then -4 * 3600000 else -5 * 3600000;
     Js.offsetOfLocal := fun l =>
       if (1678590000000 <=? l) && (l <? 1699149600000)
       then -4 * 3600000 else -5 * 3600000 |}.

(** 2023-03-11 12:00 in New York, the day before the clocks go forward,
    and the instant 23 hours and a half later. *)
Definition marchNoon : Z := 1678554000000.
Definition marchNextDay : Z := 1678638600000.

(** [{ status: 401, message: 'Unauthorized' }]. *)
Definition unauthorized : Raw :=
  RawObj {| status := Some (Some 401); rawStatusCode := None;
            headers := None; rawMessage := Some "Unauthorized" |}.

(** [{ status: 429, headers: { 'retry-after': '60' } }]. *)
Definition rateLimited : Raw :=
  RawObj {| status := Some (Some 429); rawStatusCode := None;
            headers := Some {[ "retry-after" := "60" ]};
            rawMessage := None |}.

(** [new TypeError ('Failed to fetch')]. *)
Definition fetchFailed : Raw := RawTypeError "Failed to fetch".

(** [new TypeError ('Load failed')]. *)
Definition loadFailed : Raw := RawTypeError "Load failed".

(** 40.7128, -74.0060 and [new Date ('2023-01-01')]. *)
Definition lat : Js.Number := Js.NumFinite (407128 # 10000).
Definition lon : Js.Number := Js.NumFinite (-740060 # 10000).
Definition newYear2023 : Z := 1672531200000.
Definition key : string := "40.7128_-74.0060_2023-01-01".

Definition quotaExceeded : DbError := DOMException "QuotaExceededError".

Definition emptyDatabase : Database nat unit :=
  {| historical_weather := ∅; weather_analytics := ∅ |}.

(** A manager with an open, empty database and empty memory maps. *)
Definition persistentEmpty : Manager nat unit :=
  {| db := Some emptyDatabase; memoryCache := ∅; analyticsMemoryCache := ∅ |}.

(** An entry written at instant 0, which expires 24 hours later. *)
Definition staleEntry : HistoricalWeatherCache nat :=
  {| id := key; location := (lat, lon); date := "2023-01-01"; data := 7%nat;
     cachedAt := 0; expiresAt := 86400000 |}.

(** An instant 25 hours after 0. *)
Definition dayAfter : Z := 90000000.

(** Memory-only mode, with the stale entry in the memory map. *)
Definition memoryOnlyStale : Manager nat unit :=
  {| db := None; memoryCache := {[ key := staleEntry ]};
     analyticsMemoryCache := ∅ |}.


(** The stale entry in both tiers. *)
Definition bothStale : Manager nat unit :=
  {| db := Some {| historical_weather := {[ key := staleEntry ]};
                   weather_analytics := ∅ |};
     memoryCache := {[ key := staleEntry ]};
     analyticsMemoryCache := ∅ |}.

(** A fetch function that answers with the number of the invocation. *)
Definition countingFetch (n : nat) : Promise nat string := Resolve n.

Definition ready : Hook := {| cacheManager := true; isInitialized := true |}.

(** A call of [getCacheStats] in which nothing fails. *)
Definition statsFine : Lifecycle.StatsRequests :=
  {| Lifecycle.stringify := Lifecycle.Returns;
     Lifecycle.countHistorical := Succeeds;
     Lifecycle.countAnalytics := Succeeds |}.

(** A call of [getCacheStats] whose second [count] request fails. *)
Definition statsCountFails : Lifecycle.StatsRequests :=
  {| Lifecycle.stringify := Lifecycle.Returns;
     Lifecycle.countHistorical := Succeeds;
     Lifecycle.countAnalytics := Fails (DOMException "UnknownError") |}.

(** A call of [getCacheStats] in which [JSON.stringify] throws. *)
Definition statsThrows : Lifecycle.StatsRequests :=
  {| Lifecycle.stringify := Lifecycle.ThrowsTypeError;
     Lifecycle.countHistorical := Succeeds;
     Lifecycle.countAnalytics := Succeeds |}.

(** Two doubles that agree through the fourth decimal place: 2^-15 and
    2^-14, 0.000030517578125 and 0.00006103515625. *)
Definition tiny1 : Q := 1 # 32768.
Definition tiny2 : Q := 1 # 16384.

(** The coordinates 40.71280001 and -74.00600002. *)
Definition latJitter : Q := 4071280001 # 100000000.
Definition lonJitter : Q := -7400600002 # 100000000.

(** An operation that fails twice with a network failure and then
    resolves. *)
Definition flaky (n : nat) : Attempt nat :=
  if (n <? 3)%nat then Throws fetchFailed else Resolves 42%nat.

(** An instant one hour after 0, at which [staleEntry] is still live. *)
Definition hourAfter : Z := 3600000.

(** An open database that holds [staleEntry], and empty memory maps. *)
Definition durableOnly : Manager nat unit :=
  {| db := Some {| historical_weather := {[ key := staleEntry ]};
                   weather_analytics := ∅ |};
     memoryCache := ∅; analyticsMemoryCache := ∅ |}.

(** Memory-only mode with empty maps. *)
Definition memoryOnlyEmpty : Manager nat unit :=
  {| db := None; memoryCache := ∅; analyticsMemoryCache := ∅ |}.

(** A fetch function that fails first and then answers. *)
Definition failingFirst (n : nat) : Promise nat string :=
  match n with
  | 1%nat => Reject "timeout"
  | _ => Resolve n
  end.

(** A request made on 2023-01-15 for 2023-01-01, in UTC. *)
Definition midJanuary : Z := 1673740800000.

(** 2023-03-15 00:00 UTC. *)
Definition midMarch : Z := 1678838400000.

(** Every request to the historical API answers 429. *)
Definition alwaysLimited (n : nat) : Api.FetchOutcome nat :=
  Api.Response 429 (Throws RawPrimitive).

(** Every request to the historical API answers 503. *)
Definition alwaysUnavailable (n : nat) : Api.FetchOutcome nat :=
  Api.Response 503 (Throws RawPrimitive).

(** The code units of [" <b>Rome</b> "]. *)
Definition markup : Api.CodeUnits :=
  [32; 60; 98; 62; 82; 111; 109; 101; 60; 47; 98; 62; 32]%N.

(** The code units of ["Rome"]. *)
Definition rome : Api.CodeUnits := [82; 111; 109; 101]%N.

End Samples.


(* ===================================================================== *)
(** ** Properties of the classifier and of the retry engine *)
(* ===================================================================== *)

Import Errors Cache Fetching Props.

Lemma array_includes_true {A} `{EqDecision A} (xs : list A) (x : A) :
  Js.array_includes xs x = true <-> In x xs.
Proof.
  unfold Js.array_includes. rewrite existsb_exists. split.
  - intros (y & Hy & Hd). apply bool_decide_eq_true in Hd. now subst.
  - intros Hx. exists x. split; [assumption | now apply bool_decide_eq_true].
Qed.

(** C5.  [isRetryable (e)] is true exactly when [e.code] is one of
    NETWORK_ERROR, SERVICE_UNAVAILABLE, API_LIMIT_ERROR or [e.statusCode]
    is one of 429, 500, 502, 503, 504. *)
Theorem isRetryable_iff (e : HistoricalWeatherError) :
  isRetryable e = true <->
  (code e = "NETWORK_ERROR" \/ code e = "SERVICE_UNAVAILABLE"
   \/ code e = "API_LIMIT_ERROR")
  \/ (statusCode e = Some 429 \/ statusCode e = Some 500
      \/ statusCode e = Some 502 \/ statusCode e = Some 503
      \/ statusCode e = Some 504).
Proof.
  unfold isRetryable. rewrite orb_true_iff, array_includes_true.
  destruct (statusCode e) as [s|].
  - rewrite array_includes_true. unfold retryableCodes, retryableStatusCodes.
    simpl. split.
    + intros [H|H]; [left|right]; intuition (subst; auto).
    + intros [H|H]; [left|right]; intuition (try congruence; auto).
      all: match goal with K : Some _ = Some _ |- _ => injection K as <- end; auto.
  - unfold retryableCodes. simpl. split.
    + intros [H|H]; [left|discriminate]. intuition auto.
    + intros [H|H]; [left|exfalso]; intuition (try congruence; auto).
Qed.

(** C6.  The classifier on a raw failure.  An object that has a [status]
    or [statusCode] property is classified by [status || statusCode]:
    401 gives INVALID_API_KEY, 403 ACCESS_FORBIDDEN, 404 a
    [DataUnavailableError], 429 an [APILimitError] whose [retryAfter] is
    the parsed [retry-after] header when the failure has a non-empty one,
    500, 502 and 503 give SERVICE_UNAVAILABLE and everything else
    API_ERROR.  A [TypeError] whose message includes "fetch" is a
    [NetworkError], which is retryable.  Every other failure without a
    status (a [TypeError] with another message, an object without the
    two properties, a value that is not an object) is an UNKNOWN_ERROR,
    which is not retryable. *)
Theorem handleAPIError_classification :
  (forall (o : RawObject) (context : option string),
      hasStatus o = true ->
      let e := handleAPIError (RawObj o) context in
      (statusOf o = Some 401 ->
       code e = "INVALID_API_KEY" /\ statusCode e = Some 401) /\
      (statusOf o = Some 403 ->
       code e = "ACCESS_FORBIDDEN" /\ statusCode e = Some 403) /\
      (statusOf o = Some 404 ->
       class e = ClassDataUnavailableError
       /\ code e = "DATA_UNAVAILABLE_ERROR" /\ statusCode e = Some 404) /\
      (statusOf o = Some 429 ->
       class e = ClassAPILimitError /\ code e = "API_LIMIT_ERROR"
       /\ statusCode e = Some 429
       /\ (forall h v, headers o = Some h -> h !! "retry-after" = Some v ->
                       v <> "" -> retryAfter e = Some (Js.parseInt v))
       /\ (retryAfterOf o = None -> retryAfter e = None)) /\
      (statusOf o = Some 500 \/ statusOf o = Some 502 \/ statusOf o = Some 503 ->
       code e = "SERVICE_UNAVAILABLE" /\ statusCode e = statusOf o) /\
      (statusOf o <> Some 401 -> statusOf o <> Some 403 ->
       statusOf o <> Some 404 -> statusOf o <> Some 429 ->
       statusOf o <> Some 500 -> statusOf o <> Some 502 ->
       statusOf o <> Some 503 ->
       code e = "API_ERROR" /\ statusCode e = statusOf o)) /\
  (forall (msg : string) (context : option string),
      Js.includes msg "fetch" = true ->
      let e := handleAPIError (RawTypeError msg) context in
      class e = ClassNetworkError /\ code e = "NETWORK_ERROR"
      /\ isRetryable e = true) /\
  (forall (r : Raw) (context : option string),
      match r with
      | RawClassified _ => False
      | RawTypeError msg => Js.includes msg "fetch" = false
      | RawObj o => hasStatus o = false
      | RawPrimitive => True
      end ->
      let e := handleAPIError r context in
      class e = ClassHistoricalWeatherError /\ code e = "UNKNOWN_ERROR"
      /\ isRetryable e = false).
Proof.
  split; [|split].
  - intros o context Hs e. subst e. unfold handleAPIError. rewrite Hs.
    unfold caseIs. cbv zeta.
    repeat match goal with |- _ /\ _ => split end.
    + intros ->. split; reflexivity.
    + intros ->. split; reflexivity.
    + intros ->. repeat split.
    + intros ->. simpl. repeat (split; [reflexivity|]).
      split; [|intros ->; reflexivity].
      intros h v Hh Hv Hne. unfold retryAfterOf. rewrite Hh, Hv.
      unfold Js.truthy_string.
      destruct (String.eqb_spec v ""); [contradiction | reflexivity].
    + intros [-> | [-> | ->]]; split; reflexivity.
    + intros. repeat (rewrite bool_decide_eq_false_2 by assumption).
      split; reflexivity.
  - intros msg context Hm e. subst e. unfold handleAPIError. rewrite Hm.
    repeat split.
  - intros [e0 | msg | o |] context Hr e; subst e; unfold handleAPIError;
      [contradiction | rewrite Hr | rewrite Hr |]; repeat split.
Qed.

Lemma handleAPIError_classification_witness :
  code (handleAPIError Samples.unauthorized None) = "INVALID_API_KEY"
  /\ class (handleAPIError Samples.fetchFailed None) = ClassNetworkError
  /\ code (handleAPIError Samples.loadFailed None) = "UNKNOWN_ERROR".
Proof.
  split; [|split].
  - refine (proj1 (proj1 (proj1 handleAPIError_classification _ None _) _)).
    + reflexivity.
    + reflexivity.
  - refine (proj1 (proj1 (proj2 handleAPIError_classification)
                     "Failed to fetch" None _)).
    reflexivity.
  - refine (proj1 (proj2 (proj2 (proj2 handleAPIError_classification)
                            Samples.loadFailed None _))).
    reflexivity.
Defined.

(** C6 as stated fails: a transport failure is recognised by its message
    only.  The [TypeError] with the message "Load failed", which a
    browser raises when the connection fails, has no status, yet it is
    not a [NetworkError]: it is classified UNKNOWN_ERROR, it is not
    retryable, and [withRetry] gives up after the first invocation. *)
Lemma handleAPIError_transport_counterexample :
  let e := handleAPIError Samples.loadFailed (Some "operation") in
  let run :=
    withRetry (fun _ => @Throws unit Samples.loadFailed)
      (fun _ => 0%Q) 3 "operation" in
  class e <> ClassNetworkError
  /\ code e = "UNKNOWN_ERROR"
  /\ isRetryable e = false
  /\ invocations run = 1%nat
  /\ delays run = [].
Proof.
  cbv zeta. repeat split. discriminate.
Qed.

Lemma getRetryDelay_server (r : Q) (e : HistoricalWeatherError) (n : nat) (s : Z) :
  serverDelay e = Some s ->
  getRetryDelay r e n = (inject_Z s * inject_Z 1000)%Q.
Proof.
  unfold serverDelay, getRetryDelay.
  destruct (class e); try discriminate.
  destruct (retryAfter e) as [[|z]|]; try discriminate.
  simpl. destruct (Z.eqb_spec z 0); [discriminate|].
  intros [= ->]. reflexivity.
Qed.

Lemma getRetryDelay_backoff (r : Q) (e : HistoricalWeatherError) (n : nat) :
  serverDelay e = None ->
  getRetryDelay r e n =
  (Qmin (backoff n) maxDelay + r * (1 # 10) * Qmin (backoff n) maxDelay)%Q.
Proof.
  unfold serverDelay, getRetryDelay, backoff.
  destruct (class e); try reflexivity.
  destruct (retryAfter e) as [[|z]|]; try reflexivity.
  simpl. destruct (Z.eqb_spec z 0); [reflexivity | discriminate].
Qed.

Lemma backoff_pos (n : nat) : (0 < backoff n)%Q.
Proof.
  unfold backoff, baseDelay.
  assert (H : (0 < Qpower 2 (Z.of_nat n - 1))%Q)
    by (apply Qpower_0_lt; reflexivity).
  assert (H1 : (0 < inject_Z 1000)%Q) by reflexivity.
  nra.
Qed.

(** Without a server hint the delay is the capped back-off plus a jitter
    that is never negative and less than a tenth of it. *)
Lemma getRetryDelay_bounds (r : Q) (e : HistoricalWeatherError) (n : nat) :
  serverDelay e = None ->
  (0 <= r)%Q -> (r < 1)%Q ->
  (Qmin (backoff n) maxDelay <= getRetryDelay r e n)%Q
  /\ (getRetryDelay r e n <= maxDelay * (11 # 10))%Q.
Proof.
  intros He Hr0 Hr1. rewrite (getRetryDelay_backoff _ _ _ He).
  pose proof (backoff_pos n) as Hb.
  pose proof (Q.le_min_r (backoff n) maxDelay) as Hmax.
  assert (Hpos : (0 <= Qmin (backoff n) maxDelay)%Q).
  { apply Q.min_glb; [now apply Qlt_le_weak | unfold maxDelay; discriminate]. }
  set (D := Qmin (backoff n) maxDelay) in *.
  unfold maxDelay in *.
  split; nra.
Qed.

Lemma getRetryDelay_within (r : Q) (e : HistoricalWeatherError) (n : nat) :
  (backoff n <= maxDelay)%Q ->
  (0 <= r)%Q -> (r < 1)%Q ->
  delayWithin e n (getRetryDelay r e n).
Proof.
  intros Hcap Hr0 Hr1. unfold delayWithin.
  destruct (serverDelay e) as [s|] eqn:Hs.
  - rewrite (getRetryDelay_server _ _ _ _ Hs). reflexivity.
  - destruct (getRetryDelay_bounds r e n Hs Hr0 Hr1) as [Hlo Hhi].
    split; [|assumption].
    rewrite <- (Q.min_l _ _ Hcap). assumption.
Qed.

(** C3.  An operation that fails on every invocation with a retryable
    failure is invoked exactly 3 times by [withRetry] with
    [maxAttempts = 3], which then rejects with the last classified error
    after exactly 2 delays.  The delay after attempt n is the [retryAfter]
    of the error, in seconds, when it is an [APILimitError] that carries
    one; otherwise it is at least [baseDelay * 2^(n-1)] and at most
    [maxDelay * 1.1]. *)
Theorem withRetry_retryable_exhausts
    {T : Type} (operation : nat -> Attempt T) (raw : nat -> Raw)
    (random : nat -> Q) (context : string) :
  (forall i, operation i = Throws (raw i)) ->
  (forall i, isRetryable (handleAPIError (raw i) (Some context)) = true) ->
  (forall i, (0 <= random i)%Q /\ (random i < 1)%Q) ->
  let run := withRetry operation random 3 context in
  let classified := fun i => handleAPIError (raw i) (Some context) in
  invocations run = 3%nat
  /\ settled run = Rejected (Some (classified 3%nat))
  /\ exists d1 d2,
       delays run = [d1; d2]
       /\ delayWithin (classified 1%nat) 1 d1
       /\ delayWithin (classified 2%nat) 2 d2.
Proof.
  intros Hop Hretry Hrandom run classified. subst run classified.
  unfold withRetry. simpl. rewrite !Hop, !Hretry. simpl.
  repeat split.
  eexists _, _. split; [reflexivity|].
  split; apply getRetryDelay_within; try apply Hrandom;
    unfold backoff, baseDelay, maxDelay; simpl; discriminate.
Qed.

Lemma withRetry_retryable_exhausts_witness :
  let run :=
    withRetry (fun _ => @Throws unit Samples.fetchFailed)
      (fun _ => (1 # 2)%Q) 3 "operation" in
  invocations run = 3%nat /\ length (delays run) = 2%nat.
Proof.
  destruct (withRetry_retryable_exhausts
              (fun _ => @Throws unit Samples.fetchFailed)
              (fun _ => Samples.fetchFailed) (fun _ => (1 # 2)%Q) "operation")
    as (Hcalls & _ & d1 & d2 & Hdelays & _).
  - intros i. reflexivity.
  - intros i. reflexivity.
  - intros i. split; [discriminate | reflexivity].
  - split; [exact Hcalls | now rewrite Hdelays].
Defined.

(** The delay bounds of C3 fail for a retryable failure that carries a
    server hint: a 429 with [retry-after: 60] is retried after 60 s, more
    than [maxDelay * 1.1]. *)
Lemma withRetry_delay_bound_counterexample :
  let run :=
    withRetry (fun _ => @Throws unit Samples.rateLimited)
      (fun _ => 0%Q) 3 "operation" in
  isRetryable (handleAPIError Samples.rateLimited (Some "operation")) = true
  /\ invocations run = 3%nat
  /\ delays run = [(60000 # 1)%Q; (60000 # 1)%Q]
  /\ ~ ((60000 # 1) <= maxDelay * (11 # 10))%Q.
Proof.
  repeat split; try reflexivity.
  intros H. vm_compute in H. now apply H.
Qed.

(** C4.  When the first failure of the operation classifies as
    non-retryable, [withRetry] invokes the operation exactly once, sleeps
    no delay and rejects with the classified error, whatever
    [maxAttempts] at least 1 is. *)
Theorem withRetry_non_retryable
    {T : Type} (operation : nat -> Attempt T) (random : nat -> Q)
    (maxAttempts : nat) (context : string) (raw : Raw) :
  (1 <= maxAttempts)%nat ->
  operation 1%nat = Throws raw ->
  isRetryable (handleAPIError raw (Some context)) = false ->
  let run := withRetry operation random maxAttempts context in
  invocations run = 1%nat
  /\ delays run = []
  /\ settled run = Rejected (Some (handleAPIError raw (Some context))).
Proof.
  intros Hmax Hop Hnot run. subst run. unfold withRetry.
  destruct maxAttempts as [|n]; [lia|].
  simpl. rewrite Hop, Hnot. simpl. repeat split.
Qed.

Lemma withRetry_non_retryable_witness :
  let run :=
    withRetry (fun _ => @Throws unit Samples.unauthorized)
      (fun _ => 0%Q) 3 "operation" in
  invocations run = 1%nat /\ delays run = []
  /\ settled run
     = Rejected (Some (handleAPIError Samples.unauthorized (Some "operation"))).
Proof.
  apply (withRetry_non_retryable
           (fun _ => @Throws unit Samples.unauthorized)
           (fun _ => 0%Q) 3 "operation" Samples.unauthorized).
  - lia.
  - reflexivity.
  - reflexivity.
Defined.

(* ===================================================================== *)
(** ** Properties of the cache manager *)
(* ===================================================================== *)

Lemma isExpired_false (now expires : Z) :
  isExpired now expires = false <-> now <= expires.
Proof. unfold isExpired. rewrite Z.ltb_ge. reflexivity. Qed.

Lemma isExpired_true (now expires : Z) :
  isExpired now expires = true <-> expires < now.
Proof. unfold isExpired. apply Z.ltb_lt. Qed.


Section CacheFacts.
Context {Payload Analytics : Type}.
Variable exponentForm : Q -> string.
Variable tz : Js.TimeZone.

Local Abbreviation State := (Manager Payload Analytics).
Local Abbreviation keyOf := (generateHistoricalKey exponentForm).
Local Abbreviation getH := (@getHistoricalWeather Payload Analytics exponentForm).
Local Abbreviation setH := (@setHistoricalWeather Payload Analytics exponentForm tz).
Local Abbreviation getA := (@getAnalytics Payload Analytics).

Lemma get_memory_hit (rq dl : IdbRequest) (now : Z) (lat lon : Js.Number)
    (date : Z) (m : State) (e : HistoricalWeatherCache Payload) :
  memoryCache m !! keyOf lat lon date = Some e ->
  isExpired now (expiresAt e) = false ->
  getH rq dl now lat lon date m = (m, Some (data e)).
Proof.
  intros Hm He. unfold getHistoricalWeather. rewrite Hm, He. reflexivity.
Qed.

Lemma set_memory (put : IdbRequest) (now : Z) (lat lon : Js.Number)
    (date : Z) (payload : Payload) (m : State) :
  exists e,
    memoryCache (setH put now lat lon date payload m).1 !! keyOf lat lon date
    = Some e
    /\ data e = payload
    /\ expiresAt e = addHours tz now CACHE_EXPIRY_HOURS.
Proof.
  eexists. unfold setHistoricalWeather.
  destruct (db (setMemory _ _ _)) eqn:Hdb; [destruct put|]; simpl;
    (split; [apply lookup_insert_eq | split; reflexivity]).
Qed.


(** C2.  With the durable tier present and its write failing,
    [setHistoricalWeather] rejects with the error of the request and
    leaves the database as it was, yet the entry is in the memory tier:
    every [getHistoricalWeather] with the same key made up to the
    [expiresAt] of that entry returns the payload. *)
Theorem set_persistent_failure
    (error : DbError) (now : Z) (lat lon : Js.Number) (date : Z)
    (payload : Payload) (m : State) (d : Database Payload Analytics) :
  db m = Some d ->
  let after := setH (Fails error) now lat lon date payload m in
  after.2 = Reject error
  /\ db after.1 = Some d
  /\ exists e,
       memoryCache after.1 !! keyOf lat lon date = Some e
       /\ data e = payload
       /\ expiresAt e = addHours tz now CACHE_EXPIRY_HOURS
       /\ forall (rq dl : IdbRequest) (now' : Z),
            now' <= expiresAt e ->
            getH rq dl now' lat lon date after.1 = (after.1, Some payload).
Proof.
  intros Hdb after.
  assert (Hafter : after = (setMemory m (keyOf lat lon date)
            {| id := keyOf lat lon date; location := (lat, lon);
               date := Js.toISODate date; data := payload; cachedAt := now;
               expiresAt := addHours tz now CACHE_EXPIRY_HOURS |}, Reject error)).
  { subst after. unfold setHistoricalWeather. simpl. rewrite Hdb. reflexivity. }
  rewrite Hafter. simpl. split; [reflexivity|]. split; [assumption|].
  eexists. split; [apply lookup_insert_eq|].
  split; [reflexivity|]. split; [reflexivity|].
  intros rq dl now' Hnow.
  match goal with
  | |- context [setMemory m ?k ?e] =>
      rewrite (get_memory_hit rq dl now' lat lon date (setMemory m k e) e)
  end.
  - reflexivity.
  - apply lookup_insert_eq.
  - apply isExpired_false. exact Hnow.
Qed.






Lemma clearExpiredCache_memory_only (now : Z) (m : State) :
  db m = None -> clearExpiredCache now m = m.
Proof. intros Hdb. unfold clearExpiredCache. now rewrite Hdb. Qed.

Lemma get_memory_only_expired (rq dl : IdbRequest) (now : Z)
    (lat lon : Js.Number) (date : Z) (m : State)
    (e : HistoricalWeatherCache Payload) :
  db m = None ->
  memoryCache m !! keyOf lat lon date = Some e ->
  expiresAt e < now ->
  getH rq dl now lat lon date m = (m, None).
Proof.
  intros Hdb Hm He. unfold getHistoricalWeather. rewrite Hm, Hdb.
  apply isExpired_true in He. now rewrite He.
Qed.


(** C10.  In memory-only mode, with an expired entry under the key in the
    memory map, [getHistoricalWeather] returns none and leaves the
    manager as it was.  [clearExpiredCache] leaves it as it was too: it
    returns at its [!this.db] guard before it reaches the loops over the
    memory maps.  [clearAllCache] removes the entry. *)
Theorem memory_only_expired_entry
    (rq dl tx : IdbRequest) (now : Z) (lat lon : Js.Number) (date : Z)
    (m : State) (e : HistoricalWeatherCache Payload) :
  db m = None ->
  memoryCache m !! keyOf lat lon date = Some e ->
  expiresAt e < now ->
  getH rq dl now lat lon date m = (m, None)
  /\ (forall later, clearExpiredCache later m = m)
  /\ memoryCache (clearAllCache tx m).1 !! keyOf lat lon date = None.
Proof.
  intros Hdb Hm He. split; [|split].
  - now apply get_memory_only_expired with (e := e).
  - intros later. now apply clearExpiredCache_memory_only.
  - unfold clearAllCache. simpl. rewrite Hdb. simpl. apply lookup_empty.
Qed.

Lemma remove_keeps_handle (dl : IdbRequest) (lat lon : Js.Number) (date : Z)
    (m : State) :
  is_Some (db (removeHistoricalWeather exponentForm dl lat lon date m))
  <-> is_Some (db m).
Proof.
  unfold removeHistoricalWeather. simpl.
  destruct (db m) as [d|] eqn:Hdb; [|reflexivity].
  destruct dl; simpl; rewrite ?Hdb; split; eauto.
Qed.

Lemma get_keeps_handle (rq dl : IdbRequest) (now : Z) (lat lon : Js.Number)
    (date : Z) (m : State) :
  is_Some (db m) -> is_Some (db (getH rq dl now lat lon date m).1).
Proof.
  intros Hdb. unfold getHistoricalWeather.
  destruct (db m) as [d|] eqn:Hd; [|now destruct Hdb].
  assert (Hr : is_Some (db (removeHistoricalWeather exponentForm dl lat lon date m)))
    by (apply remove_keeps_handle; rewrite Hd; eauto).
  destruct (memoryCache m !! keyOf lat lon date) as [e|];
    [destruct (isExpired now (expiresAt e))|]; simpl;
    rewrite ?Hd; eauto;
    destruct rq; simpl; rewrite ?Hd; eauto;
    destruct (historical_weather d !! keyOf lat lon date) as [c|]; simpl;
    rewrite ?Hd; eauto;
    destruct (isExpired now (expiresAt c)); simpl; rewrite ?Hd; eauto.
Qed.
End CacheFacts.



Lemma set_persistent_failure_witness :
  let after :=
    setHistoricalWeather Samples.exponentForm Samples.utc
      (Fails Samples.quotaExceeded) 0
      Samples.lat Samples.lon Samples.newYear2023 21%nat
      Samples.persistentEmpty in
  after.2 = Reject Samples.quotaExceeded
  /\ getHistoricalWeather Samples.exponentForm Succeeds Succeeds 3600000
       Samples.lat Samples.lon Samples.newYear2023 after.1
     = (after.1, Some 21%nat).
Proof.
  destruct (set_persistent_failure Samples.exponentForm Samples.utc
              Samples.quotaExceeded 0
              Samples.lat Samples.lon Samples.newYear2023 21%nat
              Samples.persistentEmpty Samples.emptyDatabase)
    as (Hrej & _ & e & _ & _ & He & Hget).
  - reflexivity.
  - split; [exact Hrej|]. apply Hget. rewrite He. vm_compute. discriminate.
Defined.

Lemma samples_key :
  generateHistoricalKey Samples.exponentForm Samples.lat Samples.lon
    Samples.newYear2023 = Samples.key.
Proof. vm_compute. reflexivity. Qed.



Lemma memory_only_expired_entry_witness :
  getHistoricalWeather Samples.exponentForm Succeeds Succeeds Samples.dayAfter
    Samples.lat Samples.lon Samples.newYear2023 Samples.memoryOnlyStale
  = (Samples.memoryOnlyStale, None)
  /\ clearExpiredCache Samples.dayAfter Samples.memoryOnlyStale
     = Samples.memoryOnlyStale
  /\ memoryCache Samples.memoryOnlyStale !! Samples.key
     = Some Samples.staleEntry.
Proof.
  destruct (memory_only_expired_entry Samples.exponentForm Succeeds Succeeds
              Succeeds Samples.dayAfter Samples.lat Samples.lon
              Samples.newYear2023 Samples.memoryOnlyStale Samples.staleEntry)
    as (Hget & Hsweep & _).
  - reflexivity.
  - rewrite samples_key. reflexivity.
  - reflexivity.
  - split; [exact Hget|]. split; [apply Hsweep | reflexivity].
Defined.

(* ===================================================================== *)
(** ** Properties of the read-through wrappers *)
(* ===================================================================== *)

Section FetchFacts.
Context {Payload Analytics E : Type}.
Variable exponentForm : Q -> string.
Variable tz : Js.TimeZone.

(** C1.  With the cache ready, the lookup a miss, the durable tier
    present and its write failing, [fetchWithCache] does not propagate
    the write failure: its [catch] invokes the fetch function a second
    time, and the call settles as that second invocation does.  The
    result of the first invocation stays in the memory tier.
    [CachedHistoricalWeatherAPI.getHistoricalWeather] has no [catch]: it
    invokes the fetch function once and rejects with the write failure. *)
Theorem fetchWithCache_write_failure
    (fetchFunction : nat -> Promise Payload E) (h : Hook)
    (rq dl : IdbRequest) (error : DbError) (now later : Z)
    (lat lon : Js.Number) (date : Z) (m : Manager Payload Analytics)
    (first : Payload)
    (stats : Lifecycle.StatsRequests)
    (window : bool) (open : IdbRequest) (stored : Database Payload Analytics) :
  isInitialized h = true ->
  cacheManager h = true ->
  is_Some (db m) ->
  (getHistoricalWeather exponentForm rq dl now lat lon date m).2 = None ->
  fetchFunction 1%nat = Resolve first ->
  let hook :=
    fetchWithCache exponentForm tz fetchFunction h rq dl (Fails error) stats
      now later lat lon date (start m) in
  let static :=
    cachedGetHistoricalWeather exponentForm tz fetchFunction window open stored
      rq dl (Fails error) now later lat lon date (start m) in
  fetchCalls hook.1 = 2%nat
  /\ hook.2 = match fetchFunction 2%nat with
              | Resolve v => Resolve v
              | Reject e => Reject (FetchError e)
              | Pending => Pending
              end
  /\ (exists e,
         memoryCache (manager hook.1)
           !! generateHistoricalKey exponentForm lat lon date = Some e
         /\ data e = first)
  /\ fetchCalls static.1 = 1%nat
  /\ static.2 = Reject (StorageError error).
Proof.
  intros Hinit Hmgr Hdb Hmiss Hfirst hook static.
  pose proof (get_keeps_handle exponentForm rq dl now lat lon date m Hdb) as Hdb1.
  destruct (getHistoricalWeather exponentForm rq dl now lat lon date m)
    as [m1 r] eqn:Hget.
  simpl in Hmiss, Hdb1. subst r. destruct Hdb1 as [d1 Hd1].
  assert (Hhook : hook =
    ({| cacheManagerInstance :=
          Some (setHistoricalWeather exponentForm tz (Fails error) later
                  lat lon date first m1).1;
        apiCacheManager := true;
        fetchCalls := 2 |},
     match fetchFunction 2%nat with
     | Resolve v => Resolve v
     | Reject e => Reject (FetchError e)
     | Pending => Pending
     end)).
  { subst hook. unfold fetchWithCache, hookGetHistoricalWeather,
      hookSetHistoricalWeather, tryCatch, bind, managerGet, managerSet,
      managerStats, callFetch, start, ret, throw, setManager, manager.
    rewrite Hinit, Hmgr. simpl. rewrite Hget. simpl. rewrite Hfirst.
    unfold setHistoricalWeather. simpl. rewrite Hd1. reflexivity. }
  assert (Hstatic : static =
    ({| cacheManagerInstance :=
          Some (setHistoricalWeather exponentForm tz (Fails error) later
                  lat lon date first m1).1;
        apiCacheManager := true;
        fetchCalls := 1 |},
     Reject (StorageError error))).
  { subst static. unfold cachedGetHistoricalWeather, bind, managerGet,
      managerSet, callFetch, start, ret, setManager, manager.
    simpl. rewrite Hget. simpl. rewrite Hfirst.
    unfold setHistoricalWeather. simpl. rewrite Hd1. reflexivity. }
  rewrite Hhook, Hstatic. unfold manager. simpl. repeat split.
  unfold setHistoricalWeather. simpl. rewrite Hd1. simpl.
  eexists. split; [apply lookup_insert_eq | reflexivity].
Qed.
End FetchFacts.

Lemma fetchWithCache_write_failure_witness :
  let hook :=
    fetchWithCache Samples.exponentForm Samples.utc Samples.countingFetch
      Samples.ready Succeeds Succeeds (Fails Samples.quotaExceeded)
      Samples.statsFine 0 1000
      Samples.lat Samples.lon Samples.newYear2023
      (start Samples.persistentEmpty) in
  fetchCalls hook.1 = 2%nat /\ hook.2 = Resolve 2%nat.
Proof.
  destruct (fetchWithCache_write_failure Samples.exponentForm Samples.utc
              Samples.countingFetch Samples.ready Succeeds Succeeds
              Samples.quotaExceeded 0 1000 Samples.lat Samples.lon
              Samples.newYear2023 Samples.persistentEmpty 1%nat
              Samples.statsFine true Succeeds Samples.emptyDatabase)
    as (Hcalls & Hres & _).
  - reflexivity.
  - reflexivity.
  - eexists. reflexivity.
  - reflexivity.
  - reflexivity.
  - split; [exact Hcalls | exact Hres].
Defined.

(** C1 as stated fails: after the lookup misses and the write fails, the
    fetch function has been invoked twice and the caller receives the
    result of the second invocation, not that of the first. *)
Lemma fetchWithCache_refetch_counterexample :
  let hook :=
    fetchWithCache Samples.exponentForm Samples.utc Samples.countingFetch
      Samples.ready Succeeds Succeeds (Fails Samples.quotaExceeded)
      Samples.statsFine 0 1000
      Samples.lat Samples.lon Samples.newYear2023
      (start Samples.persistentEmpty) in
  (getHistoricalWeather Samples.exponentForm Succeeds Succeeds 0
     Samples.lat Samples.lon Samples.newYear2023 Samples.persistentEmpty).2
  = None
  /\ Samples.countingFetch 1%nat = Resolve 1%nat
  /\ fetchCalls hook.1 <> 1%nat
  /\ hook.2 <> Resolve 1%nat.
Proof.
  vm_compute. repeat split; discriminate.
Qed.

(* ===================================================================== *)
(** ** Properties of the key construction *)
(* ===================================================================== *)

Lemma Qfloor_unique (q : Q) (z : Z) :
  (inject_Z z <= q)%Q -> (q < inject_Z (z + 1))%Q -> Qfloor q = z.
Proof.
  intros Hlo Hhi.
  pose proof (Qfloor_le q) as Hf1. pose proof (Qlt_floor q) as Hf2.
  assert (H1 : (inject_Z (Qfloor q) < inject_Z (z + 1))%Q)
    by (eapply Qle_lt_trans; eassumption).
  assert (H2 : (inject_Z z < inject_Z (Qfloor q + 1))%Q)
    by (eapply Qle_lt_trans; eassumption).
  rewrite <- Zlt_Qlt in H1, H2. lia.
Qed.

Ltac q_linear g :=
  rewrite ?inject_Z_plus, ?inject_Z_opp in *;
  change (inject_Z 1) with 1%Q in *;
  change (inject_Z (-1)) with (-1 # 1)%Q in *;
  change (inject_Z 10000) with (10000 # 1)%Q in *;
  generalize dependent (inject_Z g); intros; lra.

(** Rounding a coordinate near a grid value gives that grid value. *)
Lemma roundScaled_near (q : Q) (g : Z) :
  nearGrid q g -> Js.roundScaled (Qabs q) 4 = Z.abs g.
Proof.
  intros [Hlo Hhi]. unfold Js.roundScaled.
  change (inject_Z (10 ^ Z.of_nat 4)) with (inject_Z 10000).
  destruct (Qlt_le_dec q 0) as [Hneg | Hpos].
  - assert (Hq : g < 1) by (rewrite Zlt_Qlt; q_linear g).
    rewrite (Qabs_neg q) by (now apply Qlt_le_weak).
    rewrite Z.abs_neq by lia.
    apply Qfloor_unique; q_linear g.
  - assert (Hq : -1 < g) by (rewrite Zlt_Qlt; q_linear g).
    rewrite (Qabs_pos q) by assumption.
    rewrite Z.abs_eq by lia.
    apply Qfloor_unique; q_linear g.
Qed.

Lemma toFixed_near (ef : Q -> string) (q1 q2 : Q) (g : Z) :
  belowExponentForm q1 -> belowExponentForm q2 ->
  nearGrid q1 g -> nearGrid q2 g ->
  ((q1 < 0)%Q <-> (q2 < 0)%Q) ->
  Js.toFixed ef (Js.NumFinite q1) 4 = Js.toFixed ef (Js.NumFinite q2) 4.
Proof.
  intros Hb1 Hb2 Hn1 Hn2 Hsign. unfold Js.toFixed.
  assert (Hbig : forall q, belowExponentForm q ->
            Qle_bool (inject_Z (10 ^ 21)) (Qabs q) = false).
  { intros q Hq. destruct (Qle_bool _ _) eqn:Hle; [|reflexivity].
    apply Qle_bool_iff in Hle. unfold belowExponentForm in Hq.
    exfalso. eapply Qlt_not_le; eassumption. }
  rewrite (Hbig q1 Hb1), (Hbig q2 Hb2).
  rewrite (roundScaled_near q1 g Hn1), (roundScaled_near q2 g Hn2).
  assert (Hs : Qle_bool 0 q1 = Qle_bool 0 q2).
  { destruct (Qle_bool 0 q1) eqn:H1, (Qle_bool 0 q2) eqn:H2; try reflexivity.
    - apply Qle_bool_iff in H1. exfalso.
      assert (Hq2 : (q2 < 0)%Q).
      { apply Qnot_le_lt. intros Hc. apply Qle_bool_iff in Hc. congruence. }
      apply Hsign in Hq2. eapply Qlt_not_le; eassumption.
    - apply Qle_bool_iff in H2. exfalso.
      assert (Hq1 : (q1 < 0)%Q).
      { apply Qnot_le_lt. intros Hc. apply Qle_bool_iff in Hc. congruence. }
      apply Hsign in Hq1. eapply Qlt_not_le; eassumption. }
  rewrite Hs. reflexivity.
Qed.

(** C9.  Two coordinate pairs of the same signs whose latitudes lie less
    than 0.00005 from one four-decimal value and whose longitudes lie
    less than 0.00005 from another, with two instants of the same UTC
    day, get the same historical key. *)
Theorem generateHistoricalKey_collision
    (ef : Q -> string) (lat1 lon1 lat2 lon2 : Q) (glat glon : Z)
    (date1 date2 : Z) :
  belowExponentForm lat1 -> belowExponentForm lat2 ->
  belowExponentForm lon1 -> belowExponentForm lon2 ->
  nearGrid lat1 glat -> nearGrid lat2 glat ->
  nearGrid lon1 glon -> nearGrid lon2 glon ->
  ((lat1 < 0)%Q <-> (lat2 < 0)%Q) ->
  ((lon1 < 0)%Q <-> (lon2 < 0)%Q) ->
  Js.Day date1 = Js.Day date2 ->
  generateHistoricalKey ef (Js.NumFinite lat1) (Js.NumFinite lon1) date1
  = generateHistoricalKey ef (Js.NumFinite lat2) (Js.NumFinite lon2) date2.
Proof.
  intros Ba1 Ba2 Bo1 Bo2 Na1 Na2 No1 No2 Sa So Hday.
  unfold generateHistoricalKey.
  rewrite (toFixed_near ef lat1 lat2 glat) by assumption.
  rewrite (toFixed_near ef lon1 lon2 glon) by assumption.
  unfold Js.toISODate. rewrite Hday. reflexivity.
Qed.

Lemma generateHistoricalKey_collision_witness :
  generateHistoricalKey Samples.exponentForm
    (Js.NumFinite Samples.latJitter) (Js.NumFinite Samples.lonJitter)
    Samples.newYear2023
  = generateHistoricalKey Samples.exponentForm
      (Js.NumFinite (407128 # 10000)) (Js.NumFinite (-740060 # 10000))
      (Samples.newYear2023 + 3600000).
Proof.
  apply (generateHistoricalKey_collision Samples.exponentForm
           Samples.latJitter Samples.lonJitter
           (407128 # 10000) (-740060 # 10000) 407128 (-740060)).
  - reflexivity.
  - reflexivity.
  - reflexivity.
  - reflexivity.
  - split; reflexivity.
  - split; reflexivity.
  - split; reflexivity.
  - split; reflexivity.
  - split; intros H; vm_compute in H; discriminate H.
  - split; intros H; reflexivity.
  - reflexivity.
Defined.

(** C9 as stated fails: 2^-15 and 2^-14 agree through the fourth decimal
    place (both are 0.0000...), yet [toFixed (4)] rounds them apart, to
    "0.0000" and "0.0001". *)
Lemma generateHistoricalKey_rounding_counterexample :
  Qfloor (Samples.tiny1 * inject_Z 10000) = Qfloor (Samples.tiny2 * inject_Z 10000)
  /\ generateHistoricalKey Samples.exponentForm
       (Js.NumFinite Samples.tiny1) Samples.lon Samples.newYear2023
     = "0.0000_-74.0060_2023-01-01"
  /\ generateHistoricalKey Samples.exponentForm
       (Js.NumFinite Samples.tiny2) Samples.lon Samples.newYear2023
     = "0.0001_-74.0060_2023-01-01"
  /\ generateHistoricalKey Samples.exponentForm
       (Js.NumFinite Samples.tiny1) Samples.lon Samples.newYear2023
     <> generateHistoricalKey Samples.exponentForm
          (Js.NumFinite Samples.tiny2) Samples.lon Samples.newYear2023.
Proof.
  vm_compute. repeat split. discriminate.
Qed.

(* ===================================================================== *)
(** ** Further properties of the classifier and of the retry engine *)
(* ===================================================================== *)

Import Messages.

(** The code and status code of the error built for an object that
    carries a status. *)
Lemma handleAPIError_status_view (o : RawObject) (context : option string) :
  hasStatus o = true ->
  let e := handleAPIError (RawObj o) context in
  (statusOf o = Some 401 /\ code e = "INVALID_API_KEY" /\ statusCode e = Some 401)
  \/ (statusOf o = Some 403 /\ code e = "ACCESS_FORBIDDEN"
      /\ statusCode e = Some 403)
  \/ (statusOf o = Some 404 /\ code e = "DATA_UNAVAILABLE_ERROR"
      /\ statusCode e = Some 404)
  \/ (statusOf o = Some 429 /\ code e = "API_LIMIT_ERROR"
      /\ statusCode e = Some 429)
  \/ ((statusOf o = Some 500 \/ statusOf o = Some 502 \/ statusOf o = Some 503)
      /\ code e = "SERVICE_UNAVAILABLE" /\ statusCode e = statusOf o)
  \/ (~ In (statusOf o)
          [Some 401; Some 403; Some 404; Some 429; Some 500; Some 502; Some 503]
      /\ code e = "API_ERROR" /\ statusCode e = statusOf o).
Proof.
  intros Hs. cbn [handleAPIError]. rewrite Hs. unfold caseIs. cbv zeta.
  destruct (decide (statusOf o = Some 401)) as [E|N1];
    [rewrite E; left; repeat split|].
  destruct (decide (statusOf o = Some 403)) as [E|N2];
    [rewrite E; right; left; repeat split|].
  destruct (decide (statusOf o = Some 404)) as [E|N3];
    [rewrite E; do 2 right; left; repeat split|].
  destruct (decide (statusOf o = Some 429)) as [E|N4];
    [rewrite E; do 3 right; left; repeat split|].
  destruct (decide (statusOf o = Some 500)) as [E|N5];
    [rewrite E; do 4 right; left; repeat split; auto|].
  destruct (decide (statusOf o = Some 502)) as [E|N6];
    [rewrite E; do 4 right; left; repeat split; auto|].
  destruct (decide (statusOf o = Some 503)) as [E|N7];
    [rewrite E; do 4 right; left; repeat split; auto|].
  repeat (rewrite bool_decide_eq_false_2 by assumption). cbn [orb].
  do 5 right. repeat split. cbn. intuition congruence.
Qed.

Lemma isRetryable_by_fields (e : HistoricalWeatherError) (c : string)
    (s : option Z) :
  code e = c -> statusCode e = s ->
  isRetryable e = true
  <-> In c retryableCodes \/ (exists n, s = Some n /\ In n retryableStatusCodes).
Proof.
  intros <- <-. unfold isRetryable. rewrite orb_true_iff, array_includes_true.
  destruct (statusCode e) as [n|].
  - rewrite array_includes_true. split; intros [H|H]; auto.
    + right. eauto.
    + destruct H as (n' & [= <-] & H). auto.
  - split; intros [H|H]; auto; [discriminate | now destruct H as (? & ? & _)].
Qed.

Ltac in_list :=
  cbn [In retryableCodes retryableStatusCodes] in *;
  intuition (try discriminate; try congruence; try lia).

(** X1.  The classifier and the retryability predicate together: a
    failure is retried exactly when it is a retryable error of the
    taxonomy, a [TypeError] whose message mentions "fetch", or an object
    whose [status || statusCode] is 429, 500, 502, 503 or 504.  So a 504
    is retried although it is classified API_ERROR, and no other status
    is. *)
Theorem handleAPIError_retryable_iff (r : Raw) (context : option string) :
  isRetryable (handleAPIError r context) = true <-> retryableRaw r.
Proof.
  destruct r as [e | msg | o |]; cbn [handleAPIError retryableRaw].
  - reflexivity.
  - destruct (Js.includes msg "fetch"); split; try reflexivity; discriminate.
  - destruct (hasStatus o) eqn:Hs.
    + pose proof (handleAPIError_status_view o context Hs) as Hview.
      cbn [handleAPIError] in Hview. rewrite Hs in Hview. cbv zeta in Hview.
      destruct Hview as
        [(E & Hc & Hst) | [(E & Hc & Hst) | [(E & Hc & Hst) | [(E & Hc & Hst)
         | [(E & Hc & Hst) | (E & Hc & Hst)]]]]];
        rewrite (isRetryable_by_fields _ _ _ Hc Hst).
      * rewrite E. split; [|intros [_ H]]; in_list.
        destruct H0 as (n & [= <-] & H). in_list.
      * rewrite E. split; [|intros [_ H]]; in_list.
        destruct H0 as (n & [= <-] & H). in_list.
      * rewrite E. split; [|intros [_ H]]; in_list.
        destruct H0 as (n & [= <-] & H). in_list.
      * rewrite E. split; [intros _; split; [reflexivity|]; in_list|].
        intros _. right. exists 429. in_list.
      * split; [intros _; split; [reflexivity|]; in_list|].
        intros _. left. in_list.
      * split.
        -- intros [H | (n & Hn & H)]; [in_list|]. split; [reflexivity|].
           rewrite Hn in *. in_list; subst; in_list.
        -- intros [_ H]. right. destruct (statusOf o) as [n|]; [|in_list].
           exists n. split; [reflexivity|]. in_list.
    + split; [discriminate | intros [H _]; discriminate H].
  - split; [discriminate | contradiction].
Qed.

Lemma logError_by_fields (e : HistoricalWeatherError) (c : string) (n : Z) :
  code e = c -> statusCode e = Some n ->
  (500 <= n \/ n = 429) ->
  logError e = ConsoleError \/ logError e = ConsoleWarn.
Proof.
  intros Hc Hs Hn. unfold logError. rewrite Hs.
  destruct (Z.eqb_spec n 0) as [->|Hz]; [lia|]. cbn [negb andb].
  destruct (Z.leb_spec 500 n); [now left|].
  assert (n = 429) as -> by lia.
  rewrite bool_decide_eq_true_2 by reflexivity. rewrite orb_true_r. now right.
Qed.

(** X7.  A raw failure that the retry engine would retry is never logged
    at the info level: [logError] writes it with [console.error] or
    [console.warn]. *)
Theorem logError_retryable_raw (r : Raw) (context : option string) :
  (forall e, r <> RawClassified e) ->
  isRetryable (handleAPIError r context) = true ->
  logError (handleAPIError r context) = ConsoleError
  \/ logError (handleAPIError r context) = ConsoleWarn.
Proof.
  intros Hraw Hretry.
  destruct r as [e | msg | o |].
  - now elim (Hraw e).
  - cbn in *. destruct (Js.includes msg "fetch"); [now right | discriminate].
  - destruct (hasStatus o) eqn:Hs.
    + pose proof (handleAPIError_status_view o context Hs) as Hview.
      cbv zeta in Hview.
      destruct Hview as
        [(E & Hc & Hst) | [(E & Hc & Hst) | [(E & Hc & Hst) | [(E & Hc & Hst)
         | [(E & Hc & Hst) | (E & Hc & Hst)]]]]];
        rewrite (isRetryable_by_fields _ _ _ Hc Hst) in Hretry.
      * destruct Hretry as [H | (n & [= <-] & H)]; in_list.
      * destruct Hretry as [H | (n & [= <-] & H)]; in_list.
      * destruct Hretry as [H | (n & [= <-] & H)]; in_list.
      * apply (logError_by_fields _ _ 429 Hc Hst). lia.
      * destruct E as [E | [E | E]]; rewrite E in Hst;
          apply (logError_by_fields _ _ _ Hc Hst); lia.
      * destruct Hretry as [H | (n & Hn & H)]; [in_list|].
        rewrite Hn in Hst. apply (logError_by_fields _ _ _ Hc Hst).
        in_list.
    + cbn in *. rewrite Hs in *. discriminate.
  - discriminate.
Qed.

Lemma logError_retryable_raw_witness :
  logError (handleAPIError Samples.rateLimited None) = ConsoleError
  \/ logError (handleAPIError Samples.rateLimited None) = ConsoleWarn.
Proof.
  apply (logError_retryable_raw Samples.rateLimited None).
  - intros e. discriminate.
  - reflexivity.
Defined.

(** X6.  The two lookups for the user are total: every error has a
    message that is not empty and between one and three suggested
    actions, none of them empty; an unknown code gets the generic ones. *)
Theorem messages_total (e : HistoricalWeatherError) :
  getUserFriendlyMessage e <> ""
  /\ (1 <= length (getSuggestedActions e) <= 3)%nat
  /\ Forall (fun a => a <> "") (getSuggestedActions e).
Proof.
  unfold getUserFriendlyMessage, getSuggestedActions. cbv zeta.
  repeat match goal with
         | |- context [String.eqb (code e) ?s] => destruct (String.eqb (code e) s)
         end; cbn [orb];
    (split; [|split]; [ discriminate | cbn; lia | repeat constructor; discriminate ]).
Qed.

Lemma backoff_capped (n : nat) : (6 <= n)%nat -> (maxDelay <= backoff n)%Q.
Proof.
  intros Hn. unfold backoff, baseDelay, maxDelay.
  assert (H : (Qpower 2 5 <= Qpower 2 (Z.of_nat n - 1))%Q).
  { apply Qpower_le_compat_l; [lia | discriminate]. }
  change (Qpower 2 5) with (32 # 1)%Q in H.
  change (inject_Z 1000) with (1000 # 1)%Q.
  change (inject_Z 30000) with (30000 # 1)%Q.
  generalize dependent (Qpower 2 (Z.of_nat n - 1)). intros q H. lra.
Qed.

(** X5.  The schedule of delays when the error carries no server hint.
    For attempts 1 to 5 the delay is at least the back-off
    [baseDelay * 2^(n-1)] and at most 1.1 times the back-off, and the
    back-off doubles from one attempt to the next (1, 2, 4, 8, 16 s);
    from attempt 6 on the delay stays between [maxDelay] and
    [maxDelay * 1.1], both included. *)
Theorem getRetryDelay_schedule (r : Q) (e : HistoricalWeatherError) (n : nat) :
  serverDelay e = None ->
  (0 <= r)%Q -> (r < 1)%Q ->
  ((1 <= n)%nat -> (n <= 5)%nat ->
   (backoff n <= getRetryDelay r e n)%Q
   /\ (getRetryDelay r e n <= backoff n * (11 # 10))%Q
   /\ (backoff (S n) == 2 * backoff n)%Q)
  /\ ((6 <= n)%nat ->
      (maxDelay <= getRetryDelay r e n)%Q
      /\ (getRetryDelay r e n <= maxDelay * (11 # 10))%Q).
Proof.
  intros He Hr0 Hr1.
  rewrite (getRetryDelay_backoff _ _ _ He). split.
  - intros Hn1 Hn5.
    assert (Hcases : (n = 1 \/ n = 2 \/ n = 3 \/ n = 4 \/ n = 5)%nat) by lia.
    assert (Hmin : (Qmin (backoff n) maxDelay == backoff n)%Q).
    { apply Q.min_l.
      destruct Hcases as [-> | [-> | [-> | [-> | ->]]]]; vm_compute; discriminate. }
    rewrite Hmin.
    pose proof (backoff_pos n) as Hpos.
    split; [|split].
    + nra.
    + nra.
    + destruct Hcases as [-> | [-> | [-> | [-> | ->]]]]; vm_compute; reflexivity.
  - intros Hn.
    assert (Hmin : (Qmin (backoff n) maxDelay == maxDelay)%Q)
      by (apply Q.min_r, backoff_capped; assumption).
    rewrite Hmin. unfold maxDelay.
    change (inject_Z 30000) with (30000 # 1)%Q. split; nra.
Qed.

Lemma getRetryDelay_schedule_witness :
  (maxDelay
   <= getRetryDelay (1 # 2) (handleAPIError Samples.fetchFailed None) 6)%Q
  /\ (getRetryDelay (1 # 2) (handleAPIError Samples.fetchFailed None) 6
      <= maxDelay * (11 # 10))%Q.
Proof.
  apply (getRetryDelay_schedule (1 # 2)
           (handleAPIError Samples.fetchFailed None) 6).
  - reflexivity.
  - discriminate.
  - reflexivity.
  - lia.
Defined.

Section RetryFacts.
Context {T : Type}.
Variable operation : nat -> Attempt T.
Variable random : nat -> Q.
Variable maxAttempts : nat.
Variable context : string.

Local Abbreviation classify := (fun raw => handleAPIError raw (Some context)).
Local Abbreviation loop := (retryLoop operation random maxAttempts context).
Local Abbreviation proper := (endsProperly operation maxAttempts context).

(** The invariant of the loop of [withRetry], from any attempt on. *)
Lemma retryLoop_shape (remaining : nat) :
  forall (attempt : nat) (last : option HistoricalWeatherError)
         (calls : nat) (slept : list Q),
    attempt = S calls ->
    (attempt + remaining = S maxAttempts)%nat ->
    remaining <> 0%nat ->
    let run := loop remaining attempt last calls slept in
    (calls < invocations run)%nat
    /\ (invocations run <= maxAttempts)%nat
    /\ length (delays run) = (length slept + (invocations run - S calls))%nat
    /\ (forall j, (j < length slept)%nat -> delays run !! j = slept !! j)
    /\ (forall j, (j < invocations run - S calls)%nat ->
          exists raw,
            operation (S calls + j) = Throws raw
            /\ isRetryable (classify raw) = true
            /\ delays run !! (length slept + j)%nat
               = Some (getRetryDelay (random (S calls + j)%nat) (classify raw)
                         (S calls + j)))
    /\ proper run.
Proof.
  induction remaining as [|remaining IH];
    intros attempt last calls slept Ha Hsum Hne; [contradiction|].
  cbn [retryLoop]. unfold endsProperly.
  destruct (operation (S calls)) as [v | raw] eqn:Hop.
  - cbn. rewrite Hop. repeat split; try lia; try (intros; lia).
  - destruct (isRetryable (handleAPIError raw (Some context))) eqn:Hr; cbn [negb].
    + destruct (Nat.eqb_spec attempt maxAttempts) as [Heq | Hneq].
      * cbn. rewrite Hop.
        repeat match goal with |- _ /\ _ => split end; try lia;
          try (intros; lia); try (intros; reflexivity).
        exists raw. split; [reflexivity|]. split; [reflexivity|]. right. lia.
      * assert (Hrem : remaining <> 0%nat) by lia.
        specialize (IH (S attempt) (Some (handleAPIError raw (Some context)))
                      (S calls)
                      (slept ++ [getRetryDelay (random attempt)
                                   (handleAPIError raw (Some context)) attempt])%list
                      ltac:(lia) ltac:(lia) Hrem).
        cbv zeta in IH.
        destruct IH as (I1 & I2 & I3 & I4 & I5 & I6).
        rewrite length_app in I3, I4, I5. cbn [length] in I3, I4, I5.
        repeat match goal with |- _ /\ _ => split end; try lia.
        -- intros j Hj. rewrite I4 by lia. apply lookup_app_l. assumption.
        -- intros j Hj. destruct j as [|j].
           ++ exists raw. rewrite Nat.add_0_r. split; [assumption|].
              split; [assumption|].
              rewrite I4 by lia. rewrite Nat.add_0_r.
              rewrite lookup_app_r by lia. rewrite Nat.sub_diag. cbn.
              subst attempt. reflexivity.
           ++ destruct (I5 j ltac:(lia)) as (raw' & R1 & R2 & R3).
              exists raw'.
              replace (S calls + S j)%nat with (S (S calls) + j)%nat by lia.
              repeat split; try assumption.
              replace (length slept + S j)%nat
                with (length slept + 1 + j)%nat by lia.
              exact R3.
        -- exact I6.
    + cbn. rewrite Hop.
      repeat match goal with |- _ /\ _ => split end; try lia;
        try (intros; lia); try (intros; reflexivity).
      exists raw. auto.
Qed.

(** X2.  [withRetry] never invokes the operation more than [maxAttempts]
    times and sleeps exactly once between two invocations.  With
    [maxAttempts] at least 1 it invokes the operation at least once and
    never rejects with an unassigned error; with [maxAttempts = 0] it
    does not invoke the operation at all and throws [undefined]. *)
Theorem withRetry_bounded :
  let run := withRetry operation random maxAttempts context in
  (maxAttempts = 0%nat ->
   invocations run = 0%nat /\ delays run = [] /\ settled run = Rejected None)
  /\ ((1 <= maxAttempts)%nat ->
      (1 <= invocations run)%nat
      /\ (invocations run <= maxAttempts)%nat
      /\ length (delays run) = (invocations run - 1)%nat
      /\ settled run <> Rejected None).
Proof.
  cbv zeta. split.
  - intros ->. repeat split.
  - intros Hmax. unfold withRetry.
    destruct (retryLoop_shape maxAttempts 1 None 0 [] eq_refl ltac:(lia) ltac:(lia))
      as (H1 & H2 & H3 & _ & _ & H6).
    cbn [length] in H3. repeat split; try lia.
    intros Hs. unfold endsProperly in H6. rewrite Hs in H6. exact H6.
Qed.

(** X3.  What a run of [withRetry] means.  It settles as the last
    invocation did: fulfilled with its value, or rejected with its
    classified failure, and a rejection before the attempts are used up
    is a non-retryable one.  Every earlier invocation threw a retryable
    failure, and the delay slept after invocation [i] is
    [getRetryDelay] of that failure and [i]. *)
Theorem withRetry_outcome :
  (1 <= maxAttempts)%nat ->
  let run := withRetry operation random maxAttempts context in
  proper run
  /\ forall i, (1 <= i)%nat -> (i < invocations run)%nat ->
       exists raw,
         operation i = Throws raw
         /\ isRetryable (classify raw) = true
         /\ delays run !! (i - 1)%nat
            = Some (getRetryDelay (random i) (classify raw) i).
Proof.
  intros Hmax. cbv zeta. unfold withRetry.
  destruct (retryLoop_shape maxAttempts 1 None 0 [] eq_refl ltac:(lia) ltac:(lia))
    as (H1 & H2 & H3 & _ & H5 & H6).
  split; [exact H6|].
  intros i Hi1 Hi2. destruct (H5 (i - 1)%nat ltac:(lia)) as (raw & R1 & R2 & R3).
  replace (1 + (i - 1))%nat with i in * by lia.
  exists raw. repeat split; assumption.
Qed.

(** X4.  Transient failures are survived: when the operation throws
    retryable failures on its first [k - 1] invocations and resolves on
    the [k]-th, with [k] at most [maxAttempts], [withRetry] fulfils with
    that value after exactly [k] invocations and [k - 1] delays. *)
Theorem withRetry_recovers (k : nat) (v : T) :
  (1 <= k)%nat -> (k <= maxAttempts)%nat ->
  (forall i, (1 <= i)%nat -> (i < k)%nat ->
     exists raw, operation i = Throws raw /\ isRetryable (classify raw) = true) ->
  operation k = Resolves v ->
  let run := withRetry operation random maxAttempts context in
  settled run = Fulfilled v
  /\ invocations run = k
  /\ length (delays run) = (k - 1)%nat.
Proof.
  intros Hk1 Hk2 Hfail Hok. cbv zeta. unfold withRetry.
  destruct (retryLoop_shape maxAttempts 1 None 0 [] eq_refl ltac:(lia) ltac:(lia))
    as (H1 & H2 & H3 & _ & H5 & H6).
  set (run := retryLoop operation random maxAttempts context maxAttempts 1 None 0 [])
    in *.
  cbn [length] in H3.
  assert (Hn : invocations run = k).
  { destruct (Nat.lt_trichotomy (invocations run) k) as [Hlt | [Heq | Hgt]];
      [ | assumption | ].
    - exfalso. destruct (Hfail (invocations run) ltac:(lia) Hlt) as (raw & R1 & R2).
      unfold endsProperly in H6. destruct (settled run) as [v' | [e|]].
      + congruence.
      + destruct H6 as (raw' & Q1 & Q2 & Q3). rewrite R1 in Q1.
        injection Q1 as <-. subst e. destruct Q3 as [Q3 | Q3]; [congruence | lia].
      + exact H6.
    - exfalso. destruct (H5 (k - 1)%nat ltac:(lia)) as (raw & R1 & _).
      replace (1 + (k - 1))%nat with k in R1 by lia. congruence. }
  repeat split; try lia.
  unfold endsProperly in H6. rewrite Hn in H6.
  destruct (settled run) as [v' | [e|]].
  - congruence.
  - destruct H6 as (raw' & Q1 & _). congruence.
  - contradiction.
Qed.
End RetryFacts.

Lemma withRetry_outcome_witness :
  endsProperly Samples.flaky 3 "operation"
    (withRetry Samples.flaky (fun _ => 0%Q) 3 "operation").
Proof.
  apply (withRetry_outcome Samples.flaky (fun _ => 0%Q) 3 "operation").
  lia.
Defined.

Lemma withRetry_recovers_witness :
  let run := withRetry Samples.flaky (fun _ => 0%Q) 3 "operation" in
  settled run = Fulfilled 42%nat /\ invocations run = 3%nat
  /\ length (delays run) = 2%nat.
Proof.
  apply (withRetry_recovers Samples.flaky (fun _ => 0%Q) 3 "operation" 3 42%nat).
  - lia.
  - lia.
  - intros i Hi1 Hi3. exists Samples.fetchFailed.
    assert (Hi : (i = 1 \/ i = 2)%nat) by lia.
    destruct Hi as [-> | ->]; split; reflexivity.
  - reflexivity.
Defined.


(* ===================================================================== *)
(** ** Further properties of the cache manager *)
(* ===================================================================== *)

Ltac splits := repeat match goal with |- _ /\ _ => split end.

(** The instant [addHours] gives, in elapsed time: the hours, less what
    the offset of local time gains in between. *)
Lemma addHours_gain (tz : Js.TimeZone) (now hours : Z) :
  addHours tz now hours
  = now + hours * msPerHour - offsetGain tz now (hours * msPerHour).
Proof.
  unfold addHours, Js.setLocal, Js.UTC, offsetGain, Js.LocalTime. lia.
Qed.

Section CacheMore.
Context {Payload Analytics : Type}.
Variable exponentForm : Q -> string.
Variable tz : Js.TimeZone.

Local Abbreviation State := (Manager Payload Analytics).
Local Abbreviation keyOf := (generateHistoricalKey exponentForm).
Local Abbreviation getH := (@getHistoricalWeather Payload Analytics exponentForm).
Local Abbreviation setH := (@setHistoricalWeather Payload Analytics exponentForm tz).
Local Abbreviation removeH := (@removeHistoricalWeather Payload Analytics exponentForm).
Local Abbreviation getA := (@getAnalytics Payload Analytics).
Local Abbreviation setA := (@setAnalytics Payload Analytics tz).

Lemma get_both_missing (rq dl : IdbRequest) (now : Z) (lat lon : Js.Number)
    (date : Z) (m : State) :
  memoryCache m !! keyOf lat lon date = None ->
  (forall d, db m = Some d -> historical_weather d !! keyOf lat lon date = None) ->
  getH rq dl now lat lon date m = (m, None).
Proof.
  intros Hm Hd. unfold getHistoricalWeather. rewrite Hm.
  destruct (db m) as [d|]; [|reflexivity].
  rewrite (Hd d eq_refl). now destruct rq.
Qed.

(** X8.  After a [removeHistoricalWeather] whose delete request
    succeeds (or in memory-only mode), a lookup of the same key returns
    none and changes nothing, at any instant and however its requests
    end; and removing once more changes nothing. *)
Theorem remove_then_get (rq dl : IdbRequest) (now : Z) (lat lon : Js.Number)
    (date : Z) (m : State) :
  let m' := removeH Succeeds lat lon date m in
  getH rq dl now lat lon date m' = (m', None)
  /\ (forall dl', removeH dl' lat lon date m' = m').
Proof.
  cbv zeta.
  assert (Hmem : memoryCache (removeH Succeeds lat lon date m) !! keyOf lat lon date = None).
  { unfold removeHistoricalWeather. cbn. destruct (db m); cbn; apply lookup_delete_eq. }
  assert (Hdb : forall d, db (removeH Succeeds lat lon date m) = Some d ->
                  historical_weather d !! keyOf lat lon date = None).
  { unfold removeHistoricalWeather. cbn. destruct (db m); cbn; [|discriminate].
    intros d' [= <-]. cbn. apply lookup_delete_eq. }
  split; [now apply get_both_missing|].
  intros dl'.
  destruct (removeH Succeeds lat lon date m) as [d' mem an] eqn:Hr.
  cbn in Hmem, Hdb. unfold removeHistoricalWeather. cbn.
  rewrite (delete_id _ _ Hmem).
  destruct d' as [[h a]|]; [|reflexivity].
  destruct dl'; [|reflexivity]. cbn.
  rewrite (delete_id _ _ (Hdb _ eq_refl)). reflexivity.
Qed.

(** X9.  A [removeHistoricalWeather] whose delete request fails still
    resolves and empties the memory entry, but the record stays in the
    store: the next lookup whose request succeeds returns its payload
    again, if it has not expired, and puts it back into the memory map. *)
Theorem remove_failed_delete (error : DbError) (dl : IdbRequest) (now : Z)
    (lat lon : Js.Number) (date : Z) (m : State)
    (d : Database Payload Analytics) (e : HistoricalWeatherCache Payload) :
  db m = Some d ->
  historical_weather d !! keyOf lat lon date = Some e ->
  now <= expiresAt e ->
  let m' := removeH (Fails error) lat lon date m in
  memoryCache m' !! keyOf lat lon date = None
  /\ (getH Succeeds dl now lat lon date m').2 = Some (data e)
  /\ memoryCache (getH Succeeds dl now lat lon date m').1 !! keyOf lat lon date
     = Some e.
Proof.
  intros Hdb Hd He. cbv zeta. unfold removeHistoricalWeather. cbn. rewrite Hdb.
  split; [apply lookup_delete_eq|].
  unfold getHistoricalWeather. cbn. rewrite lookup_delete_eq, Hd.
  apply isExpired_false in He. rewrite He. cbn.
  split; [reflexivity | apply lookup_insert_eq].
Qed.

(** X10.  Removing a key that neither tier holds changes nothing,
    however the delete request ends. *)
Theorem remove_absent (dl : IdbRequest) (lat lon : Js.Number) (date : Z)
    (m : State) :
  memoryCache m !! keyOf lat lon date = None ->
  (forall d, db m = Some d -> historical_weather d !! keyOf lat lon date = None) ->
  removeH dl lat lon date m = m.
Proof.
  intros Hm Hd. destruct m as [d mem an]. cbn in *.
  unfold removeHistoricalWeather. cbn. rewrite (delete_id _ _ Hm).
  destruct d as [[h a]|]; [|reflexivity].
  destruct dl; [|reflexivity]. cbn.
  rewrite (delete_id _ _ (Hd _ eq_refl)). reflexivity.
Qed.

(** X11.  A [clearAllCache] whose transaction succeeds (or in
    memory-only mode) resolves and leaves both memory maps and both
    stores empty: every lookup that follows returns none, and clearing
    again changes nothing. *)
Theorem clearAllCache_empties (m : State) :
  let m' := (clearAllCache Succeeds m).1 in
  (clearAllCache Succeeds m).2 = Resolve tt
  /\ memoryCache m' = ∅ /\ analyticsMemoryCache m' = ∅
  /\ (forall d, db m' = Some d ->
        historical_weather d = ∅ /\ weather_analytics d = ∅)
  /\ (forall rq dl now lat lon date, getH rq dl now lat lon date m' = (m', None))
  /\ (forall rq dl now loc kind range, getA rq dl now loc kind range m' = (m', None))
  /\ clearAllCache Succeeds m' = (m', Resolve tt).
Proof.
  cbv zeta. unfold clearAllCache. cbn.
  destruct (db m) as [d|] eqn:Hdb; cbn; repeat split;
    try (match goal with H : Some _ = Some _ |- _ => injection H as <-; reflexivity end);
    try discriminate;
    try (intros; unfold getHistoricalWeather; cbn; rewrite !lookup_empty; try destruct rq; reflexivity);
    try (intros; unfold getAnalytics; cbn; rewrite !lookup_empty; try destruct rq; reflexivity).
Qed.

(** X12.  Writing one key does not disturb another: after
    [setHistoricalWeather] a lookup under a different key answers what it
    answered before, and the analytics memory map is unchanged. *)
Theorem set_other_key (put rq dl : IdbRequest) (now now' : Z)
    (lat lon lat' lon' : Js.Number) (date date' : Z)
    (payload : Payload) (m : State) :
  keyOf lat' lon' date' <> keyOf lat lon date ->
  (getH rq dl now' lat' lon' date' (setH put now lat lon date payload m).1).2
  = (getH rq dl now' lat' lon' date' m).2
  /\ analyticsMemoryCache (setH put now lat lon date payload m).1
     = analyticsMemoryCache m.
Proof.
  intros Hne. unfold setHistoricalWeather, getHistoricalWeather. cbn.
  destruct (db m) as [d|] eqn:Hdb; [destruct put|]; cbn;
    rewrite ?Hdb; cbn; rewrite ?lookup_insert_ne by auto; (split; [|reflexivity]).
  - destruct (memoryCache m !! keyOf lat' lon' date') as [e|];
      [destruct (isExpired now' (expiresAt e)); [|reflexivity]|];
      destruct rq; try reflexivity;
      destruct (historical_weather d !! keyOf lat' lon' date') as [c|];
      try reflexivity; destruct (isExpired now' (expiresAt c)); reflexivity.
  - destruct (memoryCache m !! keyOf lat' lon' date') as [e|];
      [destruct (isExpired now' (expiresAt e)); [|reflexivity]|];
      destruct rq; try reflexivity;
      destruct (historical_weather d !! keyOf lat' lon' date') as [c|];
      try reflexivity; destruct (isExpired now' (expiresAt c)); reflexivity.
  - destruct (memoryCache m !! keyOf lat' lon' date') as [e|];
      [destruct (isExpired now' (expiresAt e)); reflexivity | reflexivity].
Qed.

(** X13.  Read-through population.  When the memory map has no live
    entry under the key and the store holds a live record, the lookup
    returns the record's payload and copies the record into the memory
    map; the lookups that follow, until it expires, are answered from
    memory, unchanged, even when their request to the store fails. *)
Theorem get_populates_memory (dl rq' dl' : IdbRequest) (now now' : Z)
    (lat lon : Js.Number) (date : Z) (m : State)
    (d : Database Payload Analytics) (e : HistoricalWeatherCache Payload) :
  db m = Some d ->
  historical_weather d !! keyOf lat lon date = Some e ->
  (forall e', memoryCache m !! keyOf lat lon date = Some e' ->
              expiresAt e' < now) ->
  now <= expiresAt e ->
  now' <= expiresAt e ->
  let after := getH Succeeds dl now lat lon date m in
  after.2 = Some (data e)
  /\ memoryCache after.1 !! keyOf lat lon date = Some e
  /\ db after.1 = Some d
  /\ getH rq' dl' now' lat lon date after.1 = (after.1, Some (data e)).
Proof.
  intros Hdb Hd Hmem He He'. cbv zeta.
  assert (Hget : getH Succeeds dl now lat lon date m
                 = (setMemory m (keyOf lat lon date) e, Some (data e))).
  { unfold getHistoricalWeather. rewrite Hdb, Hd.
    apply isExpired_false in He. rewrite He. cbn.
    destruct (memoryCache m !! keyOf lat lon date) as [e'|]; [|reflexivity].
    assert (Hx : isExpired now (expiresAt e') = true)
      by (apply isExpired_true; now apply Hmem).
    now rewrite Hx. }
  rewrite Hget. cbn. repeat split; try assumption.
  - apply lookup_insert_eq.
  - apply (get_memory_hit exponentForm).
    + apply lookup_insert_eq.
    + now apply isExpired_false.
Qed.

(** X14.  The time to live is exact: 24 hours, less what the offset of
    local time gains between the write and the local time 24 hours
    later.  After a [setHistoricalWeather] whose write-through succeeded
    (or in memory-only mode), a lookup of the key later than that
    returns none. *)
Theorem set_then_get_expired (put rq dl : IdbRequest) (now now' : Z)
    (lat lon : Js.Number) (date : Z) (payload : Payload) (m : State) :
  (db m = None \/ put = Succeeds) ->
  now + 24 * 3600000 - offsetGain tz now (24 * 3600000) < now' ->
  (getH rq dl now' lat lon date (setH put now lat lon date payload m).1).2 = None.
Proof.
  intros Hmode Hlate.
  assert (Hx : isExpired now' (addHours tz now CACHE_EXPIRY_HOURS) = true).
  { apply isExpired_true. rewrite addHours_gain.
    unfold CACHE_EXPIRY_HOURS, msPerHour. lia. }
  unfold setHistoricalWeather, getHistoricalWeather. cbn.
  destruct (db m) as [d|] eqn:Hdb.
  - destruct Hmode as [Hmode | ->]; [discriminate|]. cbn.
    rewrite !lookup_insert_eq. cbn. rewrite Hx. cbn.
    destruct rq; reflexivity.
  - cbn. rewrite Hdb. rewrite !lookup_insert_eq. cbn. rewrite Hx. reflexivity.
Qed.

(** X15.  What [clearExpiredCache] keeps, with the database open.
    An entry of the memory map whose [expiresAt] has not passed is kept,
    and so is a record of the store whose [expiresAt] is after the
    sweep.  A record whose [expiresAt] is the instant of the sweep is
    deleted from the store (the key range includes its bound) although
    the memory map keeps the same entry. *)
Theorem clearExpiredCache_precise (now : Z) (m : State)
    (d : Database Payload Analytics) :
  db m = Some d ->
  exists d',
    db (clearExpiredCache now m) = Some d'
    /\ (forall k e, memoryCache m !! k = Some e -> now <= expiresAt e ->
          memoryCache (clearExpiredCache now m) !! k = Some e)
    /\ (forall k e, historical_weather d !! k = Some e -> now < expiresAt e ->
          historical_weather d' !! k = Some e)
    /\ (forall k e, historical_weather d !! k = Some e -> expiresAt e = now ->
          historical_weather d' !! k = None).
Proof.
  intros Hdb. unfold clearExpiredCache. rewrite Hdb. eexists.
  split; [reflexivity|]. cbn. repeat split; intros k e Hk He.
  - apply map_lookup_filter_Some. split; [assumption|]. cbn.
    now apply isExpired_false.
  - apply map_lookup_filter_Some. split; [assumption|]. cbn.
    apply Z.leb_gt. lia.
  - apply map_lookup_filter_None. right. intros e' Hk'. rewrite Hk in Hk'.
    injection Hk' as <-. cbn. intros Hf. apply Z.leb_gt in Hf. lia.
Qed.

(** X16.  Analytics entries live 6 hours, less what the offset of local
    time gains between the write and the local time 6 hours later.
    [setAnalytics] followed by [getAnalytics] with the same location,
    kind and range returns the stored data up to that instant, whatever
    the store does; later than that it returns none, when the
    write-through succeeded or in memory-only mode. *)
Theorem setAnalytics_then_get (put rq dl : IdbRequest) (now now' : Z)
    (loc : string) (kind : AnalysisType) (range : TimeRange)
    (payload : Analytics) (m : State) :
  let expires := now + 6 * 3600000 - offsetGain tz now (6 * 3600000) in
  (now' <= expires ->
   (getA rq dl now' loc kind range (setA put now loc kind range payload m).1).2
   = Some payload)
  /\ (expires < now' -> (db m = None \/ put = Succeeds) ->
      (getA rq dl now' loc kind range (setA put now loc kind range payload m).1).2
      = None).
Proof.
  cbv zeta. split.
  - intros Hnow.
    assert (Hx : isExpired now' (addHours tz now ANALYTICS_EXPIRY_HOURS) = false).
    { apply isExpired_false. rewrite addHours_gain.
      unfold ANALYTICS_EXPIRY_HOURS, msPerHour. lia. }
    unfold setAnalytics, getAnalytics. cbn.
    destruct (db m) as [d|] eqn:Hdb; [destruct put|]; cbn;
      rewrite ?Hdb, !lookup_insert_eq; cbn; rewrite Hx; reflexivity.
  - intros Hlate Hmode.
    assert (Hx : isExpired now' (addHours tz now ANALYTICS_EXPIRY_HOURS) = true).
    { apply isExpired_true. rewrite addHours_gain.
      unfold ANALYTICS_EXPIRY_HOURS, msPerHour. lia. }
    unfold setAnalytics, getAnalytics. cbn.
    destruct (db m) as [d|] eqn:Hdb.
    + destruct Hmode as [Hmode | ->]; [discriminate|]. cbn.
      rewrite !lookup_insert_eq. cbn. rewrite Hx. cbn.
      destruct rq; reflexivity.
    + cbn. rewrite Hdb. rewrite !lookup_insert_eq. cbn. rewrite Hx. reflexivity.
Qed.

Lemma wellFormed_filter {A} (P : string -> A -> Prop) (Q : string * A -> Prop)
    `{!forall x, Decision (Q x)} (m : gmap string A) :
  map_Forall P m -> map_Forall P (filter Q m).
Proof.
  intros HP k x Hk. apply map_lookup_filter_Some in Hk. apply (HP k x), Hk.
Qed.

Lemma addHours_later (now h : Z) : clockAdvances tz h -> now < addHours tz now h.
Proof. intros Hh. rewrite addHours_gain. specialize (Hh now). lia. Qed.

(** X17.  An invariant of the manager: every entry of the memory maps
    and of the stores is filed under its own [id] and expires after it
    was written.  Every operation of the manager keeps it: the two sets,
    the two lookups, the two removals, the sweep, the clearing and
    [close], however the requests end.  The two sets need a time zone in
    which the local clock put 24 hours, or 6 hours, forward shows a
    later instant, as it does wherever the offset of local time changes
    by less than 6 hours at a time. *)
Theorem wellFormed_preserved (m : State) :
  clockAdvances tz CACHE_EXPIRY_HOURS ->
  clockAdvances tz ANALYTICS_EXPIRY_HOURS ->
  wellFormed m ->
  (forall put now lat lon date payload,
      wellFormed (setH put now lat lon date payload m).1)
  /\ (forall put now loc kind range payload,
      wellFormed (setA put now loc kind range payload m).1)
  /\ (forall rq dl now lat lon date,
      wellFormed (getH rq dl now lat lon date m).1)
  /\ (forall rq dl now loc kind range,
      wellFormed (getA rq dl now loc kind range m).1)
  /\ (forall dl lat lon date, wellFormed (removeH dl lat lon date m))
  /\ (forall dl loc kind range, wellFormed (removeAnalytics dl loc kind range m))
  /\ (forall now, wellFormed (clearExpiredCache now m))
  /\ (forall tx, wellFormed (clearAllCache tx m).1)
  /\ wellFormed (close m).
Proof.
  intros Hday Hquarter (Hmem & Han & Hdb).
  assert (Hsame : wellFormed m) by (unfold wellFormed; splits; assumption).
  assert (Hrem : forall dl lat lon date, wellFormed (removeH dl lat lon date m)).
  { intros dl lat lon date. unfold wellFormed, removeHistoricalWeather. cbn.
    destruct (db m) as [d|] eqn:Hd; [destruct dl|]; cbn; rewrite ?Hd;
      splits; try tauto; try (apply map_Forall_delete; tauto). }
  assert (HremA : forall dl loc kind range,
             wellFormed (removeAnalytics dl loc kind range m)).
  { intros dl loc kind range. unfold wellFormed, removeAnalytics. cbn.
    destruct (db m) as [d|] eqn:Hd; [destruct dl|]; cbn; rewrite ?Hd;
      splits; try tauto; try (apply map_Forall_delete; tauto). }
  splits.
  - intros put now lat lon date payload.
    unfold wellFormed, setHistoricalWeather. cbn.
    assert (Hnew : wellFormedEntry (keyOf lat lon date)
              {| id := keyOf lat lon date; location := (lat, lon);
                 date := Js.toISODate date; data := payload; cachedAt := now;
                 expiresAt := addHours tz now CACHE_EXPIRY_HOURS |}).
    { split; [reflexivity | cbn; now apply addHours_later]. }
    destruct (db m) as [d|] eqn:Hd; [destruct put|]; cbn; rewrite ?Hd;
      splits; try tauto; apply map_Forall_insert_2; tauto.
  - intros put now loc kind range payload.
    unfold wellFormed, setAnalytics. cbn.
    assert (Hnew : wellFormedAnalytics (generateAnalyticsKey loc kind range)
              {| analyticsId := generateAnalyticsKey loc kind range;
                 locationId := loc; analysisType := kind; timeRange := range;
                 analyticsData := payload; calculatedAt := now;
                 analyticsExpiresAt := addHours tz now ANALYTICS_EXPIRY_HOURS |}).
    { split; [reflexivity | cbn; now apply addHours_later]. }
    destruct (db m) as [d|] eqn:Hd; [destruct put|]; cbn; rewrite ?Hd;
      splits; try tauto; apply map_Forall_insert_2; tauto.
  - intros rq dl now lat lon date.
    unfold getHistoricalWeather.
    destruct (db m) as [d|] eqn:Hd.
    + destruct Hdb as [Hh Ha].
      assert (Hpop : forall c, historical_weather d !! keyOf lat lon date = Some c ->
                  wellFormed (setMemory m (keyOf lat lon date) c)).
      { intros c Hc. unfold wellFormed. cbn. rewrite Hd.
        splits; try assumption.
        apply map_Forall_insert_2; [exact (Hh _ _ Hc) | assumption]. }
      destruct (memoryCache m !! keyOf lat lon date) as [e|];
        [destruct (isExpired now (expiresAt e)); cbn; [|assumption]|];
        (destruct rq; [|assumption]);
        (destruct (historical_weather d !! keyOf lat lon date) as [c|] eqn:Hc;
           [|assumption]);
        (destruct (isExpired now (expiresAt c)); cbn; [apply Hrem | now apply Hpop]).
    + destruct (memoryCache m !! keyOf lat lon date) as [e|];
        [destruct (isExpired now (expiresAt e))|]; assumption.
  - intros rq dl now loc kind range.
    unfold getAnalytics.
    destruct (db m) as [d|] eqn:Hd.
    + destruct Hdb as [Hh Ha].
      assert (Hpop : forall c,
                  weather_analytics d !! generateAnalyticsKey loc kind range = Some c ->
                  wellFormed (setAnalyticsMemory m (generateAnalyticsKey loc kind range) c)).
      { intros c Hc. unfold wellFormed. cbn. rewrite Hd.
        splits; try assumption.
        apply map_Forall_insert_2; [exact (Ha _ _ Hc) | assumption]. }
      destruct (analyticsMemoryCache m !! generateAnalyticsKey loc kind range) as [e|];
        [destruct (isExpired now (analyticsExpiresAt e)); cbn; [|assumption]|];
        (destruct rq; [|assumption]);
        (destruct (weather_analytics d !! generateAnalyticsKey loc kind range)
           as [c|] eqn:Hc; [|assumption]);
        (destruct (isExpired now (analyticsExpiresAt c)); cbn;
           [apply HremA | now apply Hpop]).
    + destruct (analyticsMemoryCache m !! generateAnalyticsKey loc kind range) as [e|];
        [destruct (isExpired now (analyticsExpiresAt e))|]; assumption.
  - exact Hrem.
  - exact HremA.
  - intros now. unfold wellFormed, clearExpiredCache.
    destruct (db m) as [d|] eqn:Hd; cbn; rewrite ?Hd; [|tauto].
    destruct Hdb as [Hh Ha].
    splits; apply wellFormed_filter; assumption.
  - intros tx. unfold wellFormed, clearAllCache. cbn.
    destruct (db m) as [d|] eqn:Hd; [destruct tx|]; cbn; rewrite ?Hd;
      splits; try tauto; apply map_Forall_empty.
  - unfold wellFormed, close. cbn. tauto.
Qed.

End CacheMore.

Lemma splitLast_cons (c : ascii) (rest : string) :
  splitLast (String c rest)
  = match splitLast rest with
    | Some (a, b) => Some (String c a, b)
    | None => if Ascii.eqb c "_" then Some (EmptyString, rest) else None
    end.
Proof. reflexivity. Qed.

Lemma splitLast_app (s w : string) :
  (forall i, String.get i w <> Some "_"%char) ->
  splitLast (s +:+ "_" +:+ w) = Some (s, w).
Proof.
  intros Hw.
  assert (Hnone : splitLast w = None).
  { clear s. induction w as [|c w IH]; [reflexivity|].
    rewrite splitLast_cons, IH.
    - destruct (Ascii.eqb_spec c "_") as [->|]; [|reflexivity].
      exfalso. apply (Hw 0%nat). reflexivity.
    - intros i. apply (Hw (S i)). }
  induction s as [|c s IH].
  - change ("" +:+ "_" +:+ w) with (String "_" w).
    rewrite splitLast_cons, Hnone. reflexivity.
  - change (String c s +:+ "_" +:+ w) with (String c (s +:+ "_" +:+ w)).
    rewrite splitLast_cons, IH. reflexivity.
Qed.

Lemma analysisType_plain (a : AnalysisType) (i : nat) :
  String.get i (analysisTypeString a) <> Some "_"%char.
Proof.
  destruct a; cbn;
    repeat (destruct i as [|i]; [discriminate|]); cbn; discriminate.
Qed.

Lemma timeRange_plain (r : TimeRange) (i : nat) :
  String.get i (timeRangeString r) <> Some "_"%char.
Proof.
  destruct r; cbn;
    repeat (destruct i as [|i]; [discriminate|]); cbn; discriminate.
Qed.

Lemma string_append_assoc (a b c : string) : (a +:+ b) +:+ c = a +:+ (b +:+ c).
Proof.
  induction a as [|x a IH]; [reflexivity|].
  change (String x ((a +:+ b) +:+ c) = String x (a +:+ (b +:+ c))).
  now rewrite IH.
Qed.

(** X18.  Analytics keys do not collide: two requests get the same key
    only when their location, kind of analysis and time range are the
    same, whatever characters the location contains. *)
Theorem generateAnalyticsKey_injective
    (loc1 loc2 : string) (kind1 kind2 : AnalysisType) (range1 range2 : TimeRange) :
  generateAnalyticsKey loc1 kind1 range1 = generateAnalyticsKey loc2 kind2 range2 ->
  loc1 = loc2 /\ kind1 = kind2 /\ range1 = range2.
Proof.
  unfold generateAnalyticsKey. intros Hkey.
  assert (Hshape : forall loc kind range,
            loc +:+ "_" +:+ analysisTypeString kind +:+ "_" +:+ timeRangeString range
            = (loc +:+ "_" +:+ analysisTypeString kind) +:+ "_" +:+ timeRangeString range).
  { intros. rewrite !string_append_assoc. reflexivity. }
  rewrite !Hshape in Hkey.
  apply (f_equal splitLast) in Hkey.
  rewrite !splitLast_app in Hkey by apply timeRange_plain.
  injection Hkey as Hprefix Hrange.
  apply (f_equal splitLast) in Hprefix.
  rewrite !splitLast_app in Hprefix by apply analysisType_plain.
  injection Hprefix as Hloc Hkind.
  repeat split; [assumption | |].
  - destruct kind1, kind2; try reflexivity; discriminate.
  - destruct range1, range2; try reflexivity; discriminate.
Qed.

Lemma remove_failed_delete_witness :
  (getHistoricalWeather Samples.exponentForm Succeeds Succeeds Samples.hourAfter
     Samples.lat Samples.lon Samples.newYear2023
     (removeHistoricalWeather Samples.exponentForm (Fails Samples.quotaExceeded)
        Samples.lat Samples.lon Samples.newYear2023 Samples.bothStale)).2
  = Some 7%nat.
Proof.
  refine (proj1 (proj2
    (remove_failed_delete Samples.exponentForm Samples.quotaExceeded Succeeds
       Samples.hourAfter Samples.lat Samples.lon Samples.newYear2023
       Samples.bothStale _ Samples.staleEntry _ _ _))).
  - reflexivity.
  - rewrite samples_key. reflexivity.
  - cbn. unfold Samples.hourAfter. lia.
Defined.

Lemma remove_absent_witness :
  removeHistoricalWeather Samples.exponentForm Succeeds
    Samples.lat Samples.lon Samples.newYear2023 Samples.persistentEmpty
  = Samples.persistentEmpty.
Proof.
  apply (remove_absent Samples.exponentForm Succeeds Samples.lat Samples.lon
           Samples.newYear2023 Samples.persistentEmpty).
  - reflexivity.
  - intros d [= <-]. reflexivity.
Defined.

Lemma set_other_key_witness :
  (getHistoricalWeather Samples.exponentForm Succeeds Succeeds Samples.hourAfter
     (Js.NumFinite Samples.tiny1) Samples.lon Samples.newYear2023
     (setHistoricalWeather Samples.exponentForm Samples.utc Succeeds 0
        Samples.lat Samples.lon Samples.newYear2023 21%nat
        Samples.durableOnly).1).2
  = (getHistoricalWeather Samples.exponentForm Succeeds Succeeds Samples.hourAfter
       (Js.NumFinite Samples.tiny1) Samples.lon Samples.newYear2023
       Samples.durableOnly).2.
Proof.
  apply (set_other_key Samples.exponentForm Samples.utc
           Succeeds Succeeds Succeeds 0
           Samples.hourAfter Samples.lat Samples.lon
           (Js.NumFinite Samples.tiny1) Samples.lon
           Samples.newYear2023 Samples.newYear2023 21%nat Samples.durableOnly).
  intros H. vm_compute in H. discriminate H.
Defined.

Lemma get_populates_memory_witness :
  let after :=
    getHistoricalWeather Samples.exponentForm Succeeds Succeeds Samples.hourAfter
      Samples.lat Samples.lon Samples.newYear2023 Samples.durableOnly in
  after.2 = Some 7%nat
  /\ getHistoricalWeather Samples.exponentForm (Fails Samples.quotaExceeded)
       Succeeds Samples.hourAfter Samples.lat Samples.lon Samples.newYear2023
       after.1
     = (after.1, Some 7%nat).
Proof.
  destruct (get_populates_memory Samples.exponentForm Succeeds
              (Fails Samples.quotaExceeded) Succeeds
              Samples.hourAfter Samples.hourAfter
              Samples.lat Samples.lon Samples.newYear2023 Samples.durableOnly
              {| historical_weather := {[ Samples.key := Samples.staleEntry ]};
                 weather_analytics := ∅ |}
              Samples.staleEntry)
    as (H1 & _ & _ & H4).
  - reflexivity.
  - rewrite samples_key. reflexivity.
  - rewrite samples_key. intros e' H. vm_compute in H. discriminate H.
  - cbn. unfold Samples.hourAfter. lia.
  - cbn. unfold Samples.hourAfter. lia.
  - split; [exact H1 | exact H4].
Defined.

Lemma set_then_get_expired_witness :
  (getHistoricalWeather Samples.exponentForm Succeeds Succeeds
     Samples.marchNextDay Samples.lat Samples.lon Samples.newYear2023
     (setHistoricalWeather Samples.exponentForm Samples.newYork Succeeds
        Samples.marchNoon Samples.lat Samples.lon Samples.newYear2023 21%nat
        Samples.persistentEmpty).1).2
  = None.
Proof.
  apply (set_then_get_expired Samples.exponentForm Samples.newYork
           Succeeds Succeeds Succeeds
           Samples.marchNoon Samples.marchNextDay
           Samples.lat Samples.lon Samples.newYear2023
           21%nat Samples.persistentEmpty).
  - right. reflexivity.
  - vm_compute. reflexivity.
Defined.

Lemma clearExpiredCache_precise_witness :
  memoryCache (clearExpiredCache Samples.hourAfter Samples.bothStale)
    !! Samples.key
  = Some Samples.staleEntry.
Proof.
  destruct (clearExpiredCache_precise Samples.hourAfter Samples.bothStale
              {| historical_weather := {[ Samples.key := Samples.staleEntry ]};
                 weather_analytics := ∅ |})
    as (d' & _ & Hmem & _).
  - reflexivity.
  - apply Hmem; [reflexivity|]. cbn. unfold Samples.hourAfter. lia.
Defined.

Lemma newYork_clockAdvances (hours : Z) :
  2 <= hours -> clockAdvances Samples.newYork hours.
Proof.
  intros Hh t. unfold offsetGain, Samples.newYork, Js.LocalTime, msPerHour.
  cbn [Js.offsetAt Js.offsetOfLocal].
  repeat match goal with
         | |- context [if ?b then _ else _] => destruct b
         end; lia.
Qed.

Lemma wellFormed_preserved_witness :
  wellFormed
    (setHistoricalWeather Samples.exponentForm Samples.newYork Succeeds
       Samples.marchNoon
       Samples.lat Samples.lon Samples.newYear2023 21%nat
       Samples.persistentEmpty).1.
Proof.
  apply (wellFormed_preserved Samples.exponentForm Samples.newYork
           Samples.persistentEmpty).
  - apply newYork_clockAdvances. unfold CACHE_EXPIRY_HOURS. lia.
  - apply newYork_clockAdvances. unfold ANALYTICS_EXPIRY_HOURS. lia.
  - unfold wellFormed. cbn. splits; apply map_Forall_empty.
Defined.

Lemma generateAnalyticsKey_injective_witness :
  "nyc_trends" = "nyc_trends" /\ patterns = patterns /\ range7d = range7d.
Proof.
  apply (generateAnalyticsKey_injective "nyc_trends" "nyc_trends"
           patterns patterns range7d range7d).
  reflexivity.
Defined.

(* ===================================================================== *)
(** ** Properties of the life cycle and of the statistics *)
(* ===================================================================== *)

Section LifecycleFacts.
Context {Payload Analytics : Type}.
Variable exponentForm : Q -> string.
Variable tz : Js.TimeZone.
Variable entryJson : HistoricalWeatherCache Payload -> nat.
Variable analyticsJson : WeatherAnalyticsCache Analytics -> nat.

Local Abbreviation State := (Manager Payload Analytics).
Local Abbreviation keyOf := (generateHistoricalKey exponentForm).
Local Abbreviation stats := (Lifecycle.getCacheStats entryJson analyticsJson).

(** X19.  A failed initialisation is never retried.  When the first
    [getCacheManager] finds [window] defined and the [indexedDB.open]
    request fails, it rejects with the error of the request, but the
    singleton is already assigned: every later call resolves with that
    manager, empty and in memory-only mode, without opening the database
    again. *)
Theorem getCacheManager_failed_open (error : DbError)
    (stored : Database Payload Analytics) :
  let first := Lifecycle.getCacheManager true (Fails error) stored None in
  first.2 = Reject error
  /\ first.1 = Some Lifecycle.newManager
  /\ db (Lifecycle.newManager : State) = None
  /\ forall window open stored',
       Lifecycle.getCacheManager window open stored' first.1
       = (first.1, Resolve (Lifecycle.newManager : State)).
Proof. cbv zeta. repeat split. Qed.

(** X20.  What [getCacheStats] counts.  After a successful
    [clearAllCache] both counts and the estimated storage size are 0 and
    the memory size is 2, the length of the text of an empty array.  In
    memory-only mode the historical count is the number of keys of the
    memory map: writing a new key adds one, overwriting a key adds none.
    With the database open the counts are those of the stores, so an
    entry whose write-through failed is not counted. *)
Theorem getCacheStats_counts (m : State) :
  (let s := stats (clearAllCache Succeeds m).1 in
   Lifecycle.historicalCount s = 0%nat
   /\ Lifecycle.analyticsCount s = 0%nat
   /\ Lifecycle.estimatedStorageSize s = 0%nat
   /\ Lifecycle.memorySize s = 2%nat)
  /\ (forall put now lat lon date payload,
        db m = None ->
        let before := Lifecycle.historicalCount (stats m) in
        let after :=
          Lifecycle.historicalCount
            (stats (setHistoricalWeather exponentForm tz put now lat lon date
                      payload m).1) in
        (memoryCache m !! keyOf lat lon date = None -> after = S before)
        /\ (is_Some (memoryCache m !! keyOf lat lon date) -> after = before))
  /\ (forall error now lat lon date payload,
        is_Some (db m) ->
        let after :=
          (setHistoricalWeather exponentForm tz (Fails error) now lat lon date
             payload m).1 in
        Lifecycle.historicalCount (stats after)
        = Lifecycle.historicalCount (stats m)
        /\ Lifecycle.estimatedStorageSize (stats after)
           = Lifecycle.estimatedStorageSize (stats m)).
Proof.
  splits.
  - cbv zeta. unfold clearAllCache, Lifecycle.getCacheStats. cbn.
    destruct (db m); cbn; rewrite ?map_to_list_empty; cbn; repeat split.
  - intros put now lat lon date payload Hdb. cbv zeta.
    unfold setHistoricalWeather, Lifecycle.getCacheStats.
    cbn. rewrite Hdb. cbn. rewrite Hdb. cbn. split.
    + intros Hnone. now apply map_size_insert_None.
    + intros Hsome. now apply map_size_insert_Some.
  - intros error now lat lon date payload [d Hdb]. cbv zeta.
    unfold setHistoricalWeather, Lifecycle.getCacheStats.
    cbn. rewrite Hdb. cbn. rewrite Hdb. cbn. split; reflexivity.
Qed.
End LifecycleFacts.

(* ===================================================================== *)
(** ** Further properties of the read-through wrappers *)
(* ===================================================================== *)

Section FetchMore.
Context {Payload Analytics E : Type}.
Variable exponentForm : Q -> string.
Variable tz : Js.TimeZone.
Variable fetchFunction : nat -> Promise Payload E.

Local Abbreviation State := (Manager Payload Analytics).
Local Abbreviation keyOf := (generateHistoricalKey exponentForm).
Local Abbreviation getH := (@getHistoricalWeather Payload Analytics exponentForm).
Local Abbreviation setH := (@setHistoricalWeather Payload Analytics exponentForm tz).
Local Abbreviation fwc := (fetchWithCache exponentForm tz fetchFunction).
Local Abbreviation static := (cachedGetHistoricalWeather exponentForm tz fetchFunction).

Lemma get_memory_only_state (rq dl : IdbRequest) (now : Z) (lat lon : Js.Number)
    (date : Z) (m : State) :
  db m = None -> (getH rq dl now lat lon date m).1 = m.
Proof.
  intros Hdb. unfold getHistoricalWeather. rewrite Hdb.
  destruct (memoryCache m !! keyOf lat lon date) as [e|];
    [destruct (isExpired now (expiresAt e))|]; reflexivity.
Qed.



(** A cache hit never fetches. *)
Lemma fetchWithCache_hit (h : Hook) (rq dl put : IdbRequest)
    (stats : Lifecycle.StatsRequests) (now later : Z)
    (lat lon : Js.Number) (date : Z) (w : World Payload Analytics)
    (m : State) (e : HistoricalWeatherCache Payload) :
  isInitialized h = true -> cacheManager h = true ->
  cacheManagerInstance w = Some m ->
  memoryCache m !! keyOf lat lon date = Some e ->
  now <= expiresAt e ->
  fwc h rq dl put stats now later lat lon date w = (w, Resolve (data e)).
Proof.
  intros Hi Hm Hw Hmem He.
  unfold fetchWithCache, hookGetHistoricalWeather, tryCatch, bind, managerGet,
    ret, setManager, manager.
  rewrite Hi, Hm. cbn. rewrite Hw.
  rewrite (get_memory_hit exponentForm rq dl now lat lon date m e Hmem)
    by (now apply isExpired_false).
  destruct w; cbn in *. now subst.
Qed.

(** X21.  A value that was fetched and cached is not fetched again
    within its time to live.  After a first [fetchWithCache] that missed,
    fetched, wrote the cache and read the statistics (the write-through
    and the two counts succeeding, or in memory-only mode), a second
    call for the same key returns the same value without invoking the
    fetch function, up to the [expiresAt] of the entry: 24 hours after
    the write, less what the offset of local time gains in between.  The
    fetch function has been invoked once in all. *)
Theorem fetchWithCache_second_call (h : Hook)
    (rq dl put rq' dl' put' : IdbRequest)
    (stats stats' : Lifecycle.StatsRequests) (now later now' later' : Z)
    (lat lon : Js.Number) (date : Z) (m : State) (payload : Payload) :
  isInitialized h = true -> cacheManager h = true ->
  (getH rq dl now lat lon date m).2 = None ->
  fetchFunction 1%nat = Resolve payload ->
  Lifecycle.stringify stats = Lifecycle.Returns ->
  (db m = None
   \/ (put = Succeeds /\ Lifecycle.countHistorical stats = Succeeds
       /\ Lifecycle.countAnalytics stats = Succeeds)) ->
  now' <= later + 24 * 3600000 - offsetGain tz later (24 * 3600000) ->
  let first := fwc h rq dl put stats now later lat lon date (start m) in
  let second := fwc h rq' dl' put' stats' now' later' lat lon date first.1 in
  first.2 = Resolve payload
  /\ second.2 = Resolve payload
  /\ fetchCalls second.1 = 1%nat.
Proof.
  intros Hi Hm Hmiss Hfetch Hjson Hmode Hnow. cbv zeta.
  destruct (getH rq dl now lat lon date m) as [m1 r] eqn:Hget.
  cbn in Hmiss. subst r.
  assert (Hdb1 : db m1 = None
                 \/ (put = Succeeds /\ Lifecycle.countHistorical stats = Succeeds
                     /\ Lifecycle.countAnalytics stats = Succeeds)).
  { destruct Hmode as [Hnone | Hput]; [left | now right].
    pose proof (get_memory_only_state rq dl now lat lon date m Hnone) as Hsame.
    rewrite Hget in Hsame. cbn in Hsame. now subst m1. }
  assert (Hfirst : fwc h rq dl put stats now later lat lon date (start m)
    = ({| cacheManagerInstance :=
            Some (setH put later lat lon date payload m1).1;
          apiCacheManager := true;
          fetchCalls := 1 |}, Resolve payload)).
  { unfold fetchWithCache, hookGetHistoricalWeather, hookSetHistoricalWeather,
      tryCatch, bind, managerGet, managerSet, managerStats, callFetch, start,
      ret, throw, setManager, manager, Lifecycle.getCacheStatsSettles.
    rewrite Hi, Hm. cbn. rewrite Hget. cbn. rewrite Hfetch, Hjson.
    unfold setHistoricalWeather. cbn.
    destruct Hdb1 as [Hn | (-> & -> & ->)].
    - rewrite Hn. cbn. rewrite Hn. reflexivity.
    - destruct (db m1) eqn:Hd; cbn; rewrite ?Hd; reflexivity. }
  rewrite Hfirst. cbn [fst snd].
  destruct (set_memory exponentForm tz put later lat lon date payload m1)
    as (e & He1 & He2 & He3).
  erewrite (fetchWithCache_hit h rq' dl' put' stats' now' later' lat lon date);
    [ | exact Hi | exact Hm | reflexivity | exact He1 | ].
  - cbn. rewrite He2. repeat split.
  - rewrite He3, addHours_gain. unfold CACHE_EXPIRY_HOURS, msPerHour. lia.
Qed.


(** X23.  A failure of the fetch function is caught like a failure of
    the cache: when the cache is ready, the lookup misses and the first
    invocation rejects, [fetchWithCache] invokes the fetch function a
    second time and settles as that invocation does; nothing is written
    to the cache. *)
Theorem fetchWithCache_fetch_failure (h : Hook) (rq dl put : IdbRequest)
    (stats : Lifecycle.StatsRequests)
    (now later : Z) (lat lon : Js.Number) (date : Z) (m : State) (error : E) :
  isInitialized h = true -> cacheManager h = true ->
  (getH rq dl now lat lon date m).2 = None ->
  fetchFunction 1%nat = Reject error ->
  let r := fwc h rq dl put stats now later lat lon date (start m) in
  fetchCalls r.1 = 2%nat
  /\ r.2 = match fetchFunction 2%nat with
           | Resolve v => Resolve v
           | Reject e => Reject (FetchError e)
           | Pending => Pending
           end
  /\ manager r.1 = (getH rq dl now lat lon date m).1.
Proof.
  intros Hi Hm Hmiss Hfail. cbv zeta.
  unfold fetchWithCache, hookGetHistoricalWeather, hookSetHistoricalWeather,
    tryCatch, bind, managerGet, managerSet, callFetch, start, ret, throw,
    setManager, manager.
  rewrite Hi, Hm. cbn.
  destruct (getH rq dl now lat lon date m) as [m1 r]. cbn in Hmiss. subst r.
  cbn. rewrite Hfail. cbn. repeat split.
Qed.

(** X24.  [CachedHistoricalWeatherAPI.getHistoricalWeather] invokes the
    fetch function at most once.  With its manager assigned it resolves
    with the cached value without fetching, or with the fetched value;
    it rejects with the failure of the fetch, the cache then being as
    the lookup left it, or with the failure of the cache write that
    followed a successful fetch; it stays pending when the fetch does.
    On a page that has just loaded it first awaits [initialize]: when
    the [indexedDB.open] request fails, the call rejects with the error
    of the request without fetching and the static field stays
    unassigned, and the calls that follow run on the empty manager in
    memory-only mode; when the request succeeds, or outside a browser,
    the call runs on the manager that [initialize] has set up. *)
Theorem cachedGetHistoricalWeather_single_fetch
    (window : bool) (open : IdbRequest) (stored : Database Payload Analytics)
    (rq dl put : IdbRequest)
    (now later : Z) (lat lon : Js.Number) (date : Z) (m : State) :
  (let r := static window open stored rq dl put now later lat lon date (start m) in
   (fetchCalls r.1 <= 1)%nat
   /\ match r.2 with
      | Resolve v =>
          (fetchCalls r.1 = 0%nat /\ (getH rq dl now lat lon date m).2 = Some v)
          \/ (fetchCalls r.1 = 1%nat /\ fetchFunction 1%nat = Resolve v)
      | Reject (FetchError e) =>
          fetchFunction 1%nat = Reject e
          /\ manager r.1 = (getH rq dl now lat lon date m).1
      | Reject (StorageError err) =>
          put = Fails err /\ exists v, fetchFunction 1%nat = Resolve v
      | Reject _ => False
      | Pending => fetchFunction 1%nat = Pending
      end)
  /\ (forall error window' open' stored',
        let r := static true (Fails error) stored rq dl put now later
                   lat lon date fresh in
        r.2 = Reject (StorageError error)
        /\ fetchCalls r.1 = 0%nat
        /\ apiCacheManager r.1 = false
        /\ static window' open' stored' rq dl put now later lat lon date r.1
           = static window' open' stored' rq dl put now later lat lon date
               (start Lifecycle.newManager))
  /\ static true Succeeds stored rq dl put now later lat lon date fresh
     = static true Succeeds stored rq dl put now later lat lon date
         (start (setDb Lifecycle.newManager stored))
  /\ static false open stored rq dl put now later lat lon date fresh
     = static false open stored rq dl put now later lat lon date
         (start Lifecycle.newManager).
Proof.
  splits.
  - cbv zeta.
    unfold cachedGetHistoricalWeather, bind, managerGet, managerSet, callFetch,
      start, ret, setManager, manager.
    cbn.
    destruct (getH rq dl now lat lon date m) as [m1 [c|]]; cbn.
    + split; [lia | left; auto].
    + destruct (fetchFunction 1%nat) as [v|e|] eqn:H1; cbn.
      * unfold setHistoricalWeather. cbn.
        destruct (db m1); [destruct put|]; cbn; (split; [lia|]); eauto.
      * split; [lia | auto].
      * split; [lia | reflexivity].
  - intros error window' open' stored'. cbv zeta. splits; reflexivity.
  - reflexivity.
  - reflexivity.
Qed.
End FetchMore.

Lemma fetchWithCache_second_call_witness :
  let first :=
    fetchWithCache Samples.exponentForm Samples.newYork Samples.countingFetch
      Samples.ready Succeeds Succeeds Succeeds Samples.statsFine
      Samples.marchNoon Samples.marchNoon
      Samples.lat Samples.lon Samples.newYear2023
      (start Samples.persistentEmpty) in
  let second :=
    fetchWithCache Samples.exponentForm Samples.newYork Samples.countingFetch
      Samples.ready Succeeds Succeeds Succeeds Samples.statsFine
      (Samples.marchNoon + 23 * 3600000) (Samples.marchNoon + 23 * 3600000)
      Samples.lat Samples.lon Samples.newYear2023 first.1 in
  first.2 = Resolve 1%nat /\ second.2 = Resolve 1%nat
  /\ fetchCalls second.1 = 1%nat.
Proof.
  apply (fetchWithCache_second_call Samples.exponentForm Samples.newYork
           Samples.countingFetch
           Samples.ready Succeeds Succeeds Succeeds Succeeds Succeeds Succeeds
           Samples.statsFine Samples.statsFine
           Samples.marchNoon Samples.marchNoon
           (Samples.marchNoon + 23 * 3600000) (Samples.marchNoon + 23 * 3600000)
           Samples.lat Samples.lon Samples.newYear2023
           Samples.persistentEmpty 1%nat).
  - reflexivity.
  - reflexivity.
  - reflexivity.
  - reflexivity.
  - reflexivity.
  - right. repeat split.
  - vm_compute. discriminate.
Defined.

Lemma fetchWithCache_fetch_failure_witness :
  let r :=
    fetchWithCache Samples.exponentForm Samples.utc Samples.failingFirst
      Samples.ready Succeeds Succeeds Succeeds Samples.statsFine 0 1000
      Samples.lat Samples.lon Samples.newYear2023
      (start Samples.persistentEmpty) in
  fetchCalls r.1 = 2%nat /\ r.2 = Resolve 2%nat.
Proof.
  destruct (fetchWithCache_fetch_failure Samples.exponentForm Samples.utc
              Samples.failingFirst Samples.ready Succeeds Succeeds Succeeds
              Samples.statsFine
              0 1000 Samples.lat Samples.lon Samples.newYear2023
              Samples.persistentEmpty "timeout")
    as (Hcalls & Hres & _).
  - reflexivity.
  - reflexivity.
  - reflexivity.
  - reflexivity.
  - split; [exact Hcalls | exact Hres].
Defined.

(* ===================================================================== *)
(** ** Properties of the API client *)
(* ===================================================================== *)




Section RangeFacts.
Context {T : Type}.
Variable tz : Js.TimeZone.
Variable fetchDay : Z -> option T.
Variable endDate : Z.

Local Abbreviation loop := (Api.rangeLoop tz fetchDay endDate).


End RangeFacts.



(** A range of 47 hours and a half across the night the clocks go
    forward in New York: three days are asked for, the noons of 11, 12
    and 13 March, where steps of 24 hours would reach two. *)
Example getWeatherRange_newYork :
  Api.getWeatherRange Samples.newYork 34 Samples.midMarch
    (fun d => Some d) (Some Samples.marchNoon)
    (Some (Samples.marchNoon + 171000000))
  = Some (Resolve ([1678554000000; 1678636800000; 1678723200000], 3%nat))
  /\ Z.to_nat (171000000 / Js.msPerDay + 1) = 2%nat.
Proof. vm_compute. split; reflexivity. Qed.

Section ApiFacts.
Context {T : Type}.
Variable tz : Js.TimeZone.
Variable apiKey : option string.
Variable now : Z.
Variable historical current : nat -> Api.FetchOutcome T.
Variable clock : nat -> Z.
Variable random : nat -> Q.
Variable date : Z.

Local Abbreviation call :=
  (Api.getHistoricalWeather tz apiKey now historical current clock random).
Local Abbreviation op := (Api.operation tz historical current clock date).

Lemma api_valid_run :
  validRequest tz apiKey now date ->
  call (Some date)
  = Api.Settles
      (withRetry op random 3
         ("fetch historical weather for " +:+ Api.toISOString date)).
Proof.
  intros (Hkey & Hfuture & Hpast).
  unfold Api.getHistoricalWeather, Js.dateLt, Js.dateGt.
  rewrite Hkey. cbn [negb].
  destruct (Z.ltb_spec (Api.endOfDay tz now) date); [lia|].
  destruct (Z.ltb_spec date (Api.oneYearBefore tz now)); [lia|].
  reflexivity.
Qed.

(** X26.  [HistoricalWeatherAPI.getHistoricalWeather] on any [Date].  It
    throws a [RangeError], before the retry engine is entered, exactly
    when the API key is configured and the date is the invalid date.
    Otherwise it runs its operation at most 3 times and sleeps at most
    twice, and it does not run it at all exactly when a check fails: no
    API key, a date after the end of the current day, or a date more
    than a year back. *)
Theorem api_attempts_bounded (day : Js.Date) :
  (call day = Api.ThrowsRangeError
   <-> day = None /\ Js.truthy_string (default "" apiKey) = true)
  /\ forall run,
       call day = Api.Settles run ->
       (invocations run <= 3)%nat
       /\ (length (delays run) <= 2)%nat
       /\ (invocations run = 0%nat
           <-> ~ exists d, day = Some d /\ validRequest tz apiKey now d).
Proof.
  unfold Api.getHistoricalWeather, Js.dateLt, Js.dateGt.
  destruct (Js.truthy_string (default "" apiKey)) eqn:Hkey; cbn [negb].
  - destruct day as [d|].
    + destruct (Z.ltb_spec (Api.endOfDay tz now) d) as [Hf|Hf].
      { split; [split; [discriminate | intros [? _]; discriminate]|].
        intros run [= <-]. cbn. splits; try lia.
        split; [intros _ (d' & [= <-] & _ & Hv & _); lia | reflexivity]. }
      destruct (Z.ltb_spec d (Api.oneYearBefore tz now)) as [Hp|Hp].
      { split; [split; [discriminate | intros [? _]; discriminate]|].
        intros run [= <-]. cbn. splits; try lia.
        split; [intros _ (d' & [= <-] & _ & _ & Hv); lia | reflexivity]. }
      split; [split; [discriminate | intros [? _]; discriminate]|].
      intros run [= <-]. unfold withRetry.
      match goal with
      | |- context [retryLoop ?o ?r ?mx ?c] =>
          destruct (retryLoop_shape o r mx c 3 1 None 0 [] eq_refl
                      ltac:(lia) ltac:(lia)) as (L1 & L2 & L3 & _)
      end.
      cbn [length] in L3. splits; try lia.
      split; [intros Hz; lia|].
      intros Hn. elim Hn. exists d. split; [reflexivity|].
      unfold validRequest. splits; assumption.
    + split; [split; [auto | reflexivity] | discriminate].
  - split; [split; [discriminate | intros [_ ?]; discriminate]|].
    intros run [= <-]. cbn. splits; try lia.
    split; [intros _ (d' & _ & Hv & _); congruence | reflexivity].
Qed.

(** X27.  A server error is not retried by the client.  When the
    request passes the checks and the historical API answers with a
    failure status other than 401 and 429 (a 500 or a 503, say), and the
    date is more than 5 days old or the current-weather API answers
    likewise, the operation throws a [DataUnavailableError]: the call
    rejects with code DATA_UNAVAILABLE_ERROR and status 404 after a
    single attempt and no delay. *)
Theorem api_server_error_not_retried (status : Z) (body : Attempt T) :
  validRequest tz apiKey now date ->
  historical 1%nat = Api.Response status body ->
  otherFailure status ->
  (date < Api.daysBefore tz (clock 1%nat) 5
   \/ exists cstatus cbody,
        current 1%nat = Api.Response cstatus cbody /\ otherFailure cstatus) ->
  exists run,
    call (Some date) = Api.Settles run
    /\ invocations run = 1%nat
    /\ delays run = []
    /\ exists e, settled run = Rejected (Some e)
                 /\ code e = "DATA_UNAVAILABLE_ERROR"
                 /\ statusCode e = Some 404.
Proof.
  intros Hvalid Hresp (Hok & H401 & H429) Hfallback.
  rewrite (api_valid_run Hvalid). eexists. split; [reflexivity|].
  assert (Hop : op 1%nat = Throws (RawClassified
            (newDataUnavailableError
               "Historical weather data is not available for this date" None))).
  { unfold Api.operation. rewrite Hresp, Hok.
    destruct (Z.eqb_spec status 401); [contradiction|].
    destruct (Z.eqb_spec status 429); [contradiction|].
    destruct Hfallback as [Hold | (cs & cb & Hc & Hcok & Hc401 & Hc429)].
    - destruct (Z.leb_spec (Api.daysBefore tz (clock 1%nat) 5) date);
        [lia | reflexivity].
    - destruct (Z.leb_spec (Api.daysBefore tz (clock 1%nat) 5) date);
        [|reflexivity].
      rewrite Hc, Hcok.
      destruct (Z.eqb_spec cs 401); [contradiction|].
      destruct (Z.eqb_spec cs 429); [contradiction|]. reflexivity. }
  unfold withRetry. cbn [retryLoop]. rewrite Hop. cbn.
  repeat split. eexists. repeat split.
Qed.

(** X28.  A rate limit is retried on the back-off schedule.  When the
    historical API answers 429 to every request, the call makes 3
    attempts and rejects with an [APILimitError] that carries no
    [retryAfter]; it sleeps twice, between 1 s and 1.1 s and between 2 s
    and 2.2 s, bounds included, whatever the response said about when to
    retry. *)
Theorem api_rate_limit_retried (body : nat -> Attempt T) :
  validRequest tz apiKey now date ->
  (forall n, historical n = Api.Response 429 (body n)) ->
  (forall n, (0 <= random n)%Q /\ (random n < 1)%Q) ->
  exists run,
    call (Some date) = Api.Settles run
    /\ invocations run = 3%nat
    /\ settled run
       = Rejected (Some (newAPILimitError "Rate limit exceeded" None))
    /\ exists d1 d2,
         delays run = [d1; d2]
         /\ (1000 # 1 <= d1)%Q /\ (d1 <= 1100 # 1)%Q
         /\ (2000 # 1 <= d2)%Q /\ (d2 <= 2200 # 1)%Q.
Proof.
  intros Hvalid Hresp Hrandom.
  rewrite (api_valid_run Hvalid). eexists. split; [reflexivity|].
  assert (Hop : forall n, op n = Throws (RawClassified
                  (newAPILimitError "Rate limit exceeded" None))).
  { intros n. unfold Api.operation. rewrite Hresp. reflexivity. }
  unfold withRetry. cbn [retryLoop]. rewrite !Hop.
  cbn [handleAPIError].
  change (isRetryable (newAPILimitError "Rate limit exceeded" None)) with true.
  cbn [negb Nat.eqb]. cbn [settled invocations delays app].
  repeat split.
  eexists _, _. split; [reflexivity|].
  destruct (Hrandom 1%nat) as [R1 R1'], (Hrandom 2%nat) as [R2 R2'].
  rewrite !getRetryDelay_backoff by reflexivity.
  change (Qmin (backoff 1) maxDelay) with (1000 # 1)%Q.
  change (Qmin (backoff 2) maxDelay) with (2000 # 1)%Q.
  repeat split; nra.
Qed.
End ApiFacts.

Lemma api_server_error_not_retried_witness :
  exists run,
    Api.getHistoricalWeather Samples.newYork (Some "k") Samples.midMarch
      Samples.alwaysUnavailable Samples.alwaysUnavailable
      (fun _ => Samples.midMarch) (fun _ => 0%Q) (Some Samples.newYear2023)
    = Api.Settles run
    /\ invocations run = 1%nat
    /\ delays run = []
    /\ exists e, settled run = Rejected (Some e)
                 /\ code e = "DATA_UNAVAILABLE_ERROR"
                 /\ statusCode e = Some 404.
Proof.
  apply (api_server_error_not_retried Samples.newYork (Some "k")
           Samples.midMarch
           Samples.alwaysUnavailable Samples.alwaysUnavailable
           (fun _ => Samples.midMarch) (fun _ => 0%Q) Samples.newYear2023
           503 (Throws RawPrimitive)).
  - unfold validRequest. splits;
      [reflexivity | vm_compute; discriminate | vm_compute; discriminate].
  - reflexivity.
  - unfold otherFailure. splits; [reflexivity | lia | lia].
  - left. vm_compute. reflexivity.
Defined.

Lemma api_rate_limit_retried_witness :
  exists run,
    Api.getHistoricalWeather Samples.utc (Some "k") Samples.midJanuary
      Samples.alwaysLimited Samples.alwaysLimited
      (fun _ => Samples.midJanuary) (fun _ => 0%Q) (Some Samples.newYear2023)
    = Api.Settles run
    /\ invocations run = 3%nat
    /\ settled run
       = Rejected (Some (newAPILimitError "Rate limit exceeded" None))
    /\ exists d1 d2,
         delays run = [d1; d2]
         /\ (1000 # 1 <= d1)%Q /\ (d1 <= 1100 # 1)%Q
         /\ (2000 # 1 <= d2)%Q /\ (d2 <= 2200 # 1)%Q.
Proof.
  apply (api_rate_limit_retried Samples.utc (Some "k") Samples.midJanuary
           Samples.alwaysLimited Samples.alwaysLimited
           (fun _ => Samples.midJanuary) (fun _ => 0%Q) Samples.newYear2023
           (fun _ => Throws RawPrimitive)).
  - unfold validRequest. splits;
      [reflexivity | vm_compute; discriminate | vm_compute; discriminate].
  - intros n. reflexivity.
  - intros n. split; [discriminate | reflexivity].
Defined.

(* ===================================================================== *)
(** ** Properties of the sanitising of user input *)
(* ===================================================================== *)

Lemma trimStart_suffix (s : Api.CodeUnits) :
  exists pre, s = (pre ++ Api.trimStart s)%list.
Proof.
  induction s as [|c s [pre IH]]; [now exists []|].
  cbn. destruct (Api.isTrimSpace c).
  - exists (c :: pre). cbn. now rewrite <- IH.
  - now exists [].
Qed.

Lemma trimStart_head (s : Api.CodeUnits) (c : N) (rest : Api.CodeUnits) :
  Api.trimStart s = c :: rest -> Api.isTrimSpace c = false.
Proof.
  induction s as [|x s IH]; [discriminate|].
  cbn. destruct (Api.isTrimSpace x) eqn:Hx; [exact IH|].
  intros [= <- _]. exact Hx.
Qed.

Lemma trimStart_sublist (s : Api.CodeUnits) : sublist (Api.trimStart s) s.
Proof.
  destruct (trimStart_suffix s) as [pre Hpre]. rewrite Hpre at 2.
  apply sublist_inserts_l. reflexivity.
Qed.

Lemma sublist_rev (l k : list N) : sublist l k -> sublist (rev l) (rev k).
Proof.
  induction 1 as [|x l k _ IH | x l k _ IH]; cbn.
  - constructor.
  - apply sublist_app; [exact IH | reflexivity].
  - transitivity (rev k); [exact IH|]. apply sublist_inserts_r. reflexivity.
Qed.

Lemma trim_sublist (s : Api.CodeUnits) : sublist (Api.trim s) s.
Proof.
  unfold Api.trim.
  transitivity (Api.trimStart s); [|apply trimStart_sublist].
  rewrite <- (rev_involutive (Api.trimStart s)) at 2.
  apply sublist_rev, trimStart_sublist.
Qed.

Lemma filter_sublist (f : N -> bool) (s : list N) : sublist (List.filter f s) s.
Proof.
  induction s as [|c s IH]; cbn; [constructor|].
  destruct (f c); [now constructor | now constructor].
Qed.

Lemma Forall_of_sublist (P : N -> Prop) (l k : list N) :
  sublist l k -> Forall P k -> Forall P l.
Proof.
  induction 1 as [|x l k _ IH | x l k _ IH]; intros HP.
  - constructor.
  - apply Forall_cons in HP. destruct HP as [Hx HP]. constructor; auto.
  - apply Forall_cons in HP. destruct HP as [_ HP]. auto.
Qed.

(** A trimmed string neither starts nor ends with white space. *)
Lemma trim_ends (s : Api.CodeUnits) :
  (forall c rest, Api.trim s = c :: rest -> Api.isTrimSpace c = false)
  /\ (forall c front, Api.trim s = (front ++ [c])%list -> Api.isTrimSpace c = false).
Proof.
  unfold Api.trim. split.
  - intros c rest Htrim.
    (* the first unit of the result is the first unit of [trimStart s] *)
    destruct (trimStart_suffix (rev (Api.trimStart s))) as [pre Hpre].
    apply (f_equal (@rev N)) in Hpre. rewrite rev_involutive, rev_app_distr in Hpre.
    rewrite Htrim in Hpre. cbn in Hpre.
    apply (trimStart_head s c (rest ++ rev pre)%list). exact Hpre.
  - intros c front Htrim.
    apply (f_equal (@rev N)) in Htrim. rewrite rev_involutive, rev_app_distr in Htrim.
    cbn in Htrim. apply (trimStart_head _ _ _ Htrim).
Qed.

(** X29.  What [sanitizeUserInput] returns holds none of the five
    characters it strips, is at most 1000 code units long, keeps code
    units of the input in their order and does not start with white
    space. *)
Theorem sanitizeUserInput_safe (input : Api.CodeUnits) :
  let out := Api.sanitizeUserInput input in
  Forall (fun c => Api.dangerous c = false) out
  /\ (length out <= 1000)%nat
  /\ sublist out input
  /\ (forall c rest, out = c :: rest -> Api.isTrimSpace c = false).
Proof.
  cbv zeta. unfold Api.sanitizeUserInput.
  set (kept := List.filter (fun c => negb (Api.dangerous c)) input).
  assert (Hsub : sublist (firstn 1000 (Api.trim kept)) kept).
  { transitivity (Api.trim kept); [apply sublist_take | apply trim_sublist]. }
  assert (Hkept : Forall (fun c => Api.dangerous c = false) kept).
  { subst kept. apply List.Forall_forall. intros c Hc.
    apply List.filter_In in Hc. destruct Hc as [_ Hc].
    now apply negb_true_iff in Hc. }
  repeat split.
  - eapply Forall_of_sublist; eassumption.
  - apply firstn_le_length.
  - transitivity kept; [exact Hsub | apply filter_sublist].
  - intros c rest Hout.
    destruct (Api.trim kept) as [|c' rest'] eqn:Htrim; [discriminate|].
    cbn in Hout. injection Hout as <- _.
    apply (proj1 (trim_ends kept) c' rest' Htrim).
Qed.

(** X30.  [sanitizeUserInput] leaves a clean input as it is: one that
    holds none of the five characters, is at most 1000 code units long
    and neither starts nor ends with white space. *)
Theorem sanitizeUserInput_clean (input : Api.CodeUnits) :
  Forall (fun c => Api.dangerous c = false) input ->
  (length input <= 1000)%nat ->
  (forall c rest, input = c :: rest -> Api.isTrimSpace c = false) ->
  (forall c front, input = (front ++ [c])%list -> Api.isTrimSpace c = false) ->
  Api.sanitizeUserInput input = input.
Proof.
  intros Hsafe Hlen Hhead Hlast. unfold Api.sanitizeUserInput.
  assert (Hfilter : List.filter (fun c => negb (Api.dangerous c)) input = input).
  { clear Hlen Hhead Hlast. induction Hsafe as [|c s Hc _ IH]; [reflexivity|].
    cbn. rewrite Hc. cbn. now rewrite IH. }
  rewrite Hfilter.
  assert (Hts : forall s, (forall c rest, s = c :: rest -> Api.isTrimSpace c = false) ->
                  Api.trimStart s = s).
  { intros [|c s] H; [reflexivity|]. cbn. now rewrite (H c s eq_refl). }
  assert (Htrim : Api.trim input = input).
  { unfold Api.trim. rewrite (Hts input Hhead).
    rewrite Hts; [apply rev_involutive|].
    intros c rest Hrev. apply (Hlast c (rev rest)).
    apply (f_equal (@rev N)) in Hrev. rewrite rev_involutive in Hrev.
    exact Hrev. }
  rewrite Htrim. apply firstn_all2. exact Hlen.
Qed.

Lemma sanitizeUserInput_clean_witness :
  Api.sanitizeUserInput Samples.rome = Samples.rome.
Proof.
  apply (sanitizeUserInput_clean Samples.rome).
  - repeat constructor.
  - cbn. lia.
  - intros c rest [= <- _]. reflexivity.
  - intros c front H.
    apply (f_equal (@rev N)) in H. rewrite rev_app_distr in H. cbn in H.
    injection H as <- _. reflexivity.
Defined.
